(** * The installer helpers of [lib/util.js]

    A shallow embedding of the package-private helpers that the phantomjs
    installer uses to probe an existing install, verify a download and record
    where the binary lives, together with the properties its specification
    states about them.

    Conventions of the embedding.
    - A JavaScript string is a [string] whose characters stand for code
      units below 256; [+:+] is JavaScript's [+] on strings.  Every literal
      of the source is ASCII.
    - [process.env] is a finite map from names to strings: a variable that
      is not set reads as [undefined], which is [None] here.
    - The file system, the module cache of [require], the console and the
      behaviour of subprocesses make up the [World]; code that touches them
      is written in the monad [JS], which threads the world and carries
      thrown exceptions.
    - A module that [require] runs may write to the console while it loads;
      a location module is taken to do nothing else to the world.
    - A kew promise is represented by the state it settles in
      ([Fulfilled] or [Rejected]); the callbacks of the source are chained
      one after the other, so every handler is run at the point where the
      promise settles.  A subprocess that never calls back is outside the
      embedding. *)

From Stdlib Require Import String Ascii List Bool NArith.
From stdpp Require Import base option gmap strings.

Local Open Scope string_scope.

(** ** JavaScript values and strings *)

(** Truthiness of a string: only the empty string is falsy. *)
Definition str_truthy (s : string) : bool :=
  match s with
  | EmptyString => false
  | String _ _ => true
  end.

(** [o || d] where [o] is a string or [undefined] and [d] a string. *)
Definition js_or (o : option string) (d : string) : string :=
  match o with
  | Some v => if str_truthy v then v else d
  | None => d
  end.

(** [a == b] where [a] is a string and [b] a string or [undefined]: no
    coercion takes place, and [undefined] equals no string. *)
Definition js_eq_str (a : string) (b : option string) : bool :=
  match b with
  | Some s => String.eqb a s
  | None => false
  end.

(** The values a settled probe can carry: [false], [undefined] or a path. *)
Inductive jsval : Type :=
  | JUndefined
  | JBool (b : bool)
  | JStr (s : string).

Definition truthy (v : jsval) : bool :=
  match v with
  | JUndefined => false
  | JBool b => b
  | JStr s => str_truthy s
  end.

(** Membership in the character class [[a-zA-Z0-9]]. *)
Definition is_alnum (c : ascii) : bool :=
  let n := N_of_ascii c in
  ((48 <=? n) && (n <=? 57) || (65 <=? n) && (n <=? 90)
   || (97 <=? n) && (n <=? 122))%N.

(** [/^[a-zA-Z0-9]*$/.test(s)]: without the [m] flag the anchors are the two
    ends of the input, so the test holds when every character is in the
    class. *)
Fixpoint test_alnum (s : string) : bool :=
  match s with
  | EmptyString => true
  | String c rest => is_alnum c && test_alnum rest
  end.

Definition backslash : ascii := ascii_of_N 92.
Definition dquote : ascii := ascii_of_N 34.
Definition LF : ascii := ascii_of_N 10.
Definition CR : ascii := ascii_of_N 13.

(** [s.replace(/\\/g, '\\\\')]: every backslash becomes two. *)
Fixpoint escape_backslashes (s : string) : string :=
  match s with
  | EmptyString => EmptyString
  | String c rest =>
      if Ascii.eqb c backslash
      then String backslash (String backslash (escape_backslashes rest))
      else String c (escape_backslashes rest)
  end.

(** White space of [String.prototype.trim] among the code units below 256:
    TAB, LF, VT, FF, CR, SP and NBSP. *)
Definition is_js_space (c : ascii) : bool :=
  let n := N_of_ascii c in
  ((9 <=? n) && (n <=? 13) || (n =? 32) || (n =? 160))%N.

Fixpoint trim_start (s : string) : string :=
  match s with
  | EmptyString => EmptyString
  | String c rest => if is_js_space c then trim_start rest else s
  end.

(** Drops the trailing white space: a character is kept when it is not white
    space or when something is kept after it. *)
Fixpoint trim_end (s : string) : string :=
  match s with
  | EmptyString => EmptyString
  | String c rest =>
      match trim_end rest with
      | EmptyString => if is_js_space c then EmptyString else String c EmptyString
      | kept => String c kept
      end
  end.

Definition trim (s : string) : string := trim_end (trim_start s).

(** ** The world outside the module *)

(** An exception or rejection reason: an error code and what it is about. *)
Inductive js_error : Type :=
  | Error (code : string) (about : string).

(** What a synchronous call completes with. *)
Inductive completion (A : Type) : Type :=
  | Normal (a : A)
  | Throw (e : js_error).
Arguments Normal {A} a.
Arguments Throw {A} e.

(** A node of the file system. *)
Inductive fsnode : Type :=
  | File (data : string)
  | Dir.

(** One call of [console.log] or [console.error] with its arguments. *)
Inductive log_arg : Type :=
  | LStr (s : string)
  | LErr (e : js_error).

Inductive log_line : Type :=
  | ConsoleLog (args : list log_arg)
  | ConsoleError (args : list log_arg).

(** The record a location module exports: field name to string value; a
    field that is not assigned reads as [undefined]. *)
Abbreviation exports := (gmap string string).

Record World : Type := mkWorld {
  env : gmap string string;                 (* process.env *)
  process_platform : string;                (* process.platform *)
  process_arch : string;                    (* process.arch *)
  fs : gmap string fsnode;                  (* the files and directories *)
  write_denied : gset string;               (* paths that cannot be written *)
  subprocess : string -> list string -> completion string;
                                            (* what execFile calls back with:
                                               an error or the standard output *)
  module_cache : gmap string exports;       (* require.cache, by file name *)
  console : list log_line                   (* console output, latest first *)
}.

Definition with_fs (f : gmap string fsnode) (w : World) : World :=
  mkWorld (env w) (process_platform w) (process_arch w) f (write_denied w)
          (subprocess w) (module_cache w) (console w).

Definition with_module_cache (c : gmap string exports) (w : World) : World :=
  mkWorld (env w) (process_platform w) (process_arch w) (fs w) (write_denied w)
          (subprocess w) c (console w).

Definition with_console (l : list log_line) (w : World) : World :=
  mkWorld (env w) (process_platform w) (process_arch w) (fs w) (write_denied w)
          (subprocess w) (module_cache w) l.

(** ** Target platform and architecture (util.js, lines 132-141) *)

(** [process.env.PHANTOMJS_PLATFORM || process.platform] *)
Definition getTargetPlatform (w : World) : string :=
  js_or (env w !! "PHANTOMJS_PLATFORM") (process_platform w).

(** [process.env.PHANTOMJS_ARCH || process.arch] *)
Definition getTargetArch (w : World) : string :=
  js_or (env w !! "PHANTOMJS_ARCH") (process_arch w).

(** ** Sequential JavaScript: state and exceptions *)

Definition JS (A : Type) : Type := World -> completion A * World.

Definition js_ret {A : Type} (a : A) : JS A := fun w => (Normal a, w).

Definition js_bind {A B : Type} (m : JS A) (k : A -> JS B) : JS B :=
  fun w =>
    match m w with
    | (Normal a, w') => k a w'
    | (Throw e, w') => (Throw e, w')
    end.

Definition js_gets {A : Type} (f : World -> A) : JS A := fun w => (Normal (f w), w).

Definition js_modify (f : World -> World) : JS unit := fun w => (Normal tt, f w).

#[global] Instance JS_ret : MRet JS := @js_ret.
#[global] Instance JS_bind : MBind JS := fun A B k m => js_bind m k.

(** ** Promises of the kew library, by the state they settle in *)

Inductive promise (A : Type) : Type :=
  | Fulfilled (a : A)
  | Rejected (e : js_error).
Arguments Fulfilled {A} a.
Arguments Rejected {A} e.

(** What a callback hands back: a plain value or another promise. *)
Inductive returned (A : Type) : Type :=
  | Value (a : A)
  | Thenable (p : promise A).
Arguments Value {A} a.
Arguments Thenable {A} p.

(** The promise that follows a callback: its value, the promise it returned,
    or a rejection with what it threw. *)
Definition adopt {A : Type} (c : completion (returned A)) : promise A :=
  match c with
  | Normal (Value a) => Fulfilled a
  | Normal (Thenable p) => p
  | Throw e => Rejected e
  end.

(** Runs a callback and settles a promise from it; the callback's exception
    does not escape. *)
Definition settle {A : Type} (cb : JS (returned A)) : JS (promise A) :=
  fun w => let (c, w') := cb w in (Normal (adopt c), w').

(** [kew.resolve(x)] *)
Definition kew_resolve {A : Type} (x : returned A) : promise A := adopt (Normal x).

(** [kew.fcall(f)] *)
Definition kew_fcall {A : Type} (f : JS (returned A)) : JS (promise A) := settle f.

(** [p.then(onSuccess)] *)
Definition kew_then {A B : Type} (p : promise A) (onSuccess : A -> JS (returned B))
  : JS (promise B) :=
  match p with
  | Fulfilled a => settle (onSuccess a)
  | Rejected e => js_ret (Rejected e)
  end.

(** [p.fail(onFail)] *)
Definition kew_fail {A : Type} (p : promise A) (onFail : js_error -> JS (returned A))
  : JS (promise A) :=
  match p with
  | Fulfilled a => js_ret (Fulfilled a)
  | Rejected e => settle (onFail e)
  end.

(** ** Node and the libraries the module requires *)

(** The pure functions of Node and of the hasha library that the module
    calls; their code is not part of the package. *)
Record Node : Type := mkNode {
  sha256_hex : string -> string;            (* hex SHA-256 digest of file data *)
  path_resolve : string -> string -> string;        (* path.resolve(a, b) *)
  path_dirname : string -> string;                  (* path.dirname(p) *)
  path_join : string -> string -> string;           (* path.join(a, b) *)
  require_resolve : gmap string fsnode -> string -> option string;
                                            (* the file a require request names *)
  eval_module : string -> string -> completion exports;
                                            (* running a module file, given its
                                               name and source text *)
  module_output : string -> string -> list log_line
                                            (* what running that module file
                                               writes to the console, latest
                                               first *)
}.

(** [console.log(...)] and [console.error(...)] *)
Definition console_log (args : list log_arg) : JS unit :=
  js_modify (fun w => with_console (ConsoleLog args :: console w) w).

Definition console_error (args : list log_arg) : JS unit :=
  js_modify (fun w => with_console (ConsoleError args :: console w) w).

(** The [fs.Stats] object of a successful [statSync]. *)
Inductive Stats : Type := StatsOf (n : fsnode).

(** An object is truthy. *)
Definition stats_truthy (st : Stats) : bool := true.

(** [fs.statSync(p)]: throws when nothing is at [p]. *)
Definition fs_statSync (p : string) : JS Stats :=
  fun w =>
    match fs w !! p with
    | Some n => (Normal (StatsOf n), w)
    | None => (Throw (Error "ENOENT" p), w)
    end.

(** [fs.writeFileSync(p, data)]: creates or overwrites the file, and throws
    when the path cannot be written or is a directory. *)
Definition fs_writeFileSync (p : string) (data : string) : JS unit :=
  fun w =>
    if bool_decide (p ∈ write_denied w) then (Throw (Error "EACCES" p), w)
    else match fs w !! p with
         | Some Dir => (Throw (Error "EISDIR" p), w)
         | _ => (Normal tt, with_fs (<[p := File data]> (fs w)) w)
         end.

(** [kew.nfcall(cp.execFile, file, args)]: the promise settles with what the
    subprocess calls back with. *)
Definition kew_nfcall_execFile (file : string) (args : list string)
  : JS (promise string) :=
  fun w =>
    match subprocess w file args with
    | Normal stdout => (Normal (Fulfilled stdout), w)
    | Throw e => (Normal (Rejected e), w)
    end.

(** Whether a string has a NUL character.  Node refuses such a string as a
    path when the call is made, before any file is looked at. *)
Fixpoint has_nul (s : string) : bool :=
  match s with
  | EmptyString => false
  | String c rest => Ascii.eqb c (ascii_of_N 0) || has_nul rest
  end.

(** [hasha.fromFile(f, {algorithm: 'sha256'})]: a promise for the digest of
    the file, rejected when the file cannot be read.  The call itself throws
    when the name has a NUL character: the read stream is created in the
    call, and Node validates the path there. *)
Definition hasha_fromFile (node : Node) (f : string) : JS (promise string) :=
  fun w =>
    if has_nul f then (Throw (Error "ERR_INVALID_ARG_VALUE" f), w)
    else
      match fs w !! f with
      | Some (File data) => (Normal (Fulfilled (sha256_hex node data)), w)
      | Some Dir => (Normal (Rejected (Error "EISDIR" f)), w)
      | None => (Normal (Rejected (Error "ENOENT" f)), w)
      end.

(** [require(request)]: a module that is already in the cache is not run
    again; a module that is not is run, which may write to the console
    whether it loads or throws, and a module that loads is put in the
    cache. *)
Definition require (node : Node) (request : string) : JS exports :=
  fun w =>
    match require_resolve node (fs w) request with
    | None => (Throw (Error "MODULE_NOT_FOUND" request), w)
    | Some filename =>
        match module_cache w !! filename with
        | Some m => (Normal m, w)
        | None =>
            match fs w !! filename with
            | Some (File src) =>
                let ran :=
                  with_console
                    ((module_output node filename src ++ console w)%list) w in
                match eval_module node filename src with
                | Normal m =>
                    (Normal m,
                     with_module_cache (<[filename := m]> (module_cache w)) ran)
                | Throw e => (Throw e, ran)
                end
            | _ => (Throw (Error "MODULE_NOT_FOUND" request), w)
            end
        end
    end.

(** ** The helpers of util.js *)

(** The download URL and the expected checksum. *)
Record DownloadSpec : Type := mkDownloadSpec {
  url : string;
  checksum : string
}.

Section Util.

Context (node : Node).

(** [helper.version], the expected version exported by [./phantomjs]. *)
Context (helper_version : string).

(** The module-level [libPath], which is [__dirname]. *)
Context (libPath : string).

(** util.js, lines 46-60. *)
Definition checkPhantomjsVersion (phantomPath : string) : JS (promise bool) :=
  console_log [LStr "Found PhantomJS at"; LStr phantomPath; LStr "...verifying"];;
  p ← kew_nfcall_execFile phantomPath ["--version"];
  p' ← kew_then p (fun stdout =>
         let version := trim stdout in
         if String.eqb helper_version version then
           mret (Value true)
         else
           console_log [LStr "PhantomJS detected, but wrong version";
                        LStr (trim stdout); LStr "@"; LStr (phantomPath +:+ ".")];;
           mret (Value false));
  kew_fail p' (fun err =>
    console_error [LStr "Error verifying phantomjs, continuing"; LErr err];;
    mret (Value false)).

(** util.js, lines 21-40.  The parameter hides the module-level
    [libPath]. *)
Definition findValidPhantomJsBinary (libPath : string) : JS (promise jsval) :=
  p ← kew_fcall (
        libModule ← require node libPath;
        targetPlatform ← js_gets getTargetPlatform;
        targetArch ← js_gets getTargetArch;
        match libModule !! "location" with
        | Some location =>
            if str_truthy location
               && js_eq_str targetPlatform (libModule !! "platform")
               && js_eq_str targetArch (libModule !! "arch")
            then
              let resolvedLocation :=
                path_resolve node (path_dirname node libPath) location in
              stats ← fs_statSync resolvedLocation;
              if stats_truthy stats then
                q ← checkPhantomjsVersion resolvedLocation;
                q' ← kew_then q (fun matches : bool =>
                       if matches
                       then mret (Thenable (kew_resolve (Value (JStr resolvedLocation))))
                       else mret (Value JUndefined));
                mret (Thenable q')
              else mret (Value (JBool false))
            else mret (Value (JBool false))
        | None => mret (Value (JBool false))
        end);
  kew_fail p (fun _ => mret (Value (JBool false))).

(** The text that [writeLocationFile] builds (util.js, lines 68-81). *)
Definition location_file_contents (location : string) (w : World) : string :=
  let location :=
    if String.eqb (getTargetPlatform w) "win32"
    then escape_backslashes location
    else location in
  let platform := getTargetPlatform w in
  let arch := getTargetArch w in
  let contents :=
    "module.exports.location = " +:+ String dquote location
      +:+ String dquote (String LF EmptyString) in
  if test_alnum platform && test_alnum arch then
    contents +:+
      ("module.exports.platform = " +:+ String dquote (getTargetPlatform w)
         +:+ String dquote (String LF EmptyString)) +:+
      ("module.exports.arch = " +:+ String dquote (getTargetArch w)
         +:+ String dquote (String LF EmptyString))
  else contents.

(** util.js, lines 66-84. *)
Definition writeLocationFile (location : string) : JS unit :=
  console_log [LStr "Writing location.js file"];;
  contents ← js_gets (location_file_contents location);
  fs_writeFileSync (path_join node libPath "location.js") contents.

(** util.js, lines 90-106; [None] is the [null] of the source. *)
Definition getDownloadSpec (w : World) : option DownloadSpec :=
  let platform := getTargetPlatform w in
  let arch := getTargetArch w in
  if String.eqb platform "linux" && String.eqb arch "arm64" then
    Some (mkDownloadSpec
      ("http://10.0.6.161/phantomjs-" +:+ helper_version +:+ "-linux-aarch64.zip")
      "ea671a9c23d7a0cdc7292889e2ac2d24365f3a99d106362a727346af3bfa9017")
  else if String.eqb platform "darwin" then
    Some (mkDownloadSpec
      ("https://github.com/Medium/phantomjs/releases/download/v2.1.1/phantomjs-"
         +:+ helper_version +:+ "-macosx.zip")
      "538cf488219ab27e309eafc629e2bcee9976990fe90b1ec334f541779150f8c1")
  else None.

(** util.js, lines 114-127; the checksum handed in is a string. *)
Definition verifyChecksum (fileName : string) (checksum : string)
  : JS (promise bool) :=
  h ← hasha_fromFile node fileName;
  p ← kew_then (kew_resolve (Thenable h)) (fun hash =>
        let result := String.eqb checksum hash in
        (if result
         then console_log [LStr "Verified checksum of previously downloaded file"]
         else console_log [LStr "Checksum did not match"]);;
        mret (Value result));
  kew_fail p (fun err =>
    console_error [LStr "Failed to verify checksum: "; LErr err];;
    mret (Value false)).

End Util.

(** ** Reading a download URL and a checksum *)

(** [s] without its first [n] characters. *)
Fixpoint string_drop (n : nat) (s : string) : string :=
  match n, s with
  | S k, String _ rest => string_drop k rest
  | _, _ => s
  end.

(** Splits a URL at its first [://] into the scheme and what follows. *)
Fixpoint url_split (u : string) : option (string * string) :=
  match u with
  | EmptyString => None
  | String c rest =>
      if String.prefix "://" u then Some (EmptyString, string_drop 3 u)
      else match url_split rest with
           | Some (scheme, after) => Some (String c scheme, after)
           | None => None
           end
  end.

Definition url_scheme (u : string) : option string := fst <$> url_split u.

(** The characters up to the first of [/], [?], [#] and [:]. *)
Fixpoint host_part (s : string) : string :=
  match s with
  | EmptyString => EmptyString
  | String c rest =>
      if Ascii.eqb c "/" || Ascii.eqb c "?" || Ascii.eqb c "#" || Ascii.eqb c ":"
      then EmptyString
      else String c (host_part rest)
  end.

Definition url_host (u : string) : option string := (host_part ∘ snd) <$> url_split u.

Definition is_digit (c : ascii) : bool :=
  let n := N_of_ascii c in ((48 <=? n) && (n <=? 57))%N.

(** The number that a string of decimal digits writes, after [acc]. *)
Fixpoint decimal_value (acc : N) (s : string) : option N :=
  match s with
  | EmptyString => Some acc
  | String c rest =>
      if is_digit c then decimal_value (acc * 10 + (N_of_ascii c - 48))%N rest
      else None
  end.

(** A decimal number of one to three digits, at most 255. *)
Definition octet (s : string) : option N :=
  match s with
  | EmptyString => None
  | _ => if (String.length s <=? 3)%nat
         then n ← decimal_value 0%N s; if (n <=? 255)%N then Some n else None
         else None
  end.

(** The fields of a string between the dots. *)
Fixpoint split_dots (s : string) : list string :=
  match s with
  | EmptyString => [EmptyString]
  | String c rest =>
      if Ascii.eqb c "."
      then EmptyString :: split_dots rest
      else match split_dots rest with
           | f :: fs => String c f :: fs
           | [] => [String c EmptyString]
           end
  end.

(** A dotted quad in one of the private ranges 10/8, 172.16/12 and
    192.168/16. *)
Definition is_private_ipv4 (host : string) : bool :=
  match octet <$> split_dots host with
  | [Some a; Some b; Some _; Some _] =>
      ((a =? 10) || (a =? 172) && (16 <=? b) && (b <=? 31)
       || (a =? 192) && (b =? 168))%N
  | _ => false
  end.

(** A hexadecimal digit, of either case. *)
Definition is_hex_digit (c : ascii) : bool :=
  let n := N_of_ascii c in
  ((48 <=? n) && (n <=? 57) || (65 <=? n) && (n <=? 70)
   || (97 <=? n) && (n <=? 102))%N.

Fixpoint all_hex (s : string) : bool :=
  match s with
  | EmptyString => true
  | String c rest => is_hex_digit c && all_hex rest
  end.

(** ** The target as the specification words it *)

(** The override as the specification names it: [TARGET_PLATFORM], used
    whenever it is set. *)
Definition spec_getTargetPlatform (w : World) : string :=
  match env w !! "TARGET_PLATFORM" with
  | Some v => v
  | None => process_platform w
  end.

(** The override as the specification names it: [TARGET_ARCHITECTURE], used
    whenever it is set. *)
Definition spec_getTargetArch (w : World) : string :=
  match env w !! "TARGET_ARCHITECTURE" with
  | Some v => v
  | None => process_arch w
  end.

(** ** What the verifiers and the probe settle with *)

(** Whether the binary at [p] reports the expected version in [w]. *)
Definition version_matches (version : string) (w : World) (p : string) : bool :=
  match subprocess w p ["--version"] with
  | Normal stdout => String.eqb version (trim stdout)
  | Throw _ => false
  end.

(** What the probe settles with, read off the loaded record and the world. *)
Definition probe_value (node : Node) (version : string) (libPath : string)
    (w : World) : jsval :=
  match require node libPath w with
  | (Normal libModule, _) =>
      match libModule !! "location" with
      | Some location =>
          if str_truthy location
             && js_eq_str (getTargetPlatform w) (libModule !! "platform")
             && js_eq_str (getTargetArch w) (libModule !! "arch")
          then
            let resolvedLocation :=
              path_resolve node (path_dirname node libPath) location in
            match fs w !! resolvedLocation with
            | Some _ =>
                if version_matches version w resolvedLocation
                then JStr resolvedLocation
                else JUndefined
            | None => JBool false
            end
          else JBool false
      | None => JBool false
      end
  | (Throw _, _) => JBool false
  end.

(** ** The text of a location record *)

(** One line of a location module. *)
Definition assignment_line (field value : string) : string :=
  "module.exports." +:+ field +:+ " = " +:+ String dquote value
    +:+ String dquote (String LF EmptyString).

(** A statement of a location module, without its line feed. *)
Definition assignment_text (field value : string) : string :=
  "module.exports." +:+ field +:+ " = " +:+ String dquote value
    +:+ String dquote EmptyString.

(** The fields of a location record. *)
Definition known_field (f : string) : Prop :=
  f = "location" \/ f = "platform" \/ f = "arch".

(** A string with a character outside [[a-zA-Z0-9]]. *)
Definition has_non_alnum (s : string) : Prop :=
  exists c, In c (list_ascii_of_string s) /\ is_alnum c = false.

(** The location as it is put between the quotes. *)
Definition written_location (w : World) (location : string) : string :=
  if String.eqb (getTargetPlatform w) "win32"
  then escape_backslashes location
  else location.

(** The record that [writeLocationFile] means to write for a target with an
    alphanumeric platform and architecture. *)
Definition written_record (w : World) (location : string) : exports :=
  <["arch" := getTargetArch w]>
    (<["platform" := getTargetPlatform w]> (<["location" := location]> ∅)).

(** A character that can stand as itself inside a double-quoted literal. *)
Definition literal_char (c : ascii) : bool :=
  negb (Ascii.eqb c dquote) && negb (Ascii.eqb c LF) && negb (Ascii.eqb c CR)
  && negb (Ascii.eqb c backslash).

(** A location that reads back as itself from between the quotes: it has no
    double quote and no line end, and it has no backslash unless backslashes
    are escaped on writing. *)
Fixpoint survives_quoting (escaped : bool) (s : string) : bool :=
  match s with
  | EmptyString => true
  | String c rest =>
      (literal_char c || escaped && Ascii.eqb c backslash)
      && survives_quoting escaped rest
  end.

(** A string without a line feed. *)
Fixpoint no_line_feed (s : string) : bool :=
  match s with
  | EmptyString => true
  | String c rest => negb (Ascii.eqb c LF) && no_line_feed rest
  end.

(** ** The location modules the installer writes, as JavaScript *)

(** The character an escape sequence [\c] of a string literal stands for.
    Escapes that take further characters (digits, [x], [u]) and line
    continuations are not covered. *)
Definition unescape (c : ascii) : option ascii :=
  if Ascii.eqb c "n" then Some LF
  else if Ascii.eqb c "r" then Some CR
  else if Ascii.eqb c "t" then Some (ascii_of_N 9)
  else if Ascii.eqb c "b" then Some (ascii_of_N 8)
  else if Ascii.eqb c "v" then Some (ascii_of_N 11)
  else if Ascii.eqb c "f" then Some (ascii_of_N 12)
  else if is_digit c || Ascii.eqb c "x" || Ascii.eqb c "u"
          || Ascii.eqb c LF || Ascii.eqb c CR then None
  else Some c.

(** Reads a double-quoted string literal after its opening quote: the value
    of the literal and the text after the closing quote.  A line end inside
    the literal, or a missing closing quote, is a syntax error. *)
Fixpoint string_literal_body (s : string) : option (string * string) :=
  match s with
  | EmptyString => None
  | String c rest =>
      if Ascii.eqb c dquote then Some (EmptyString, rest)
      else if Ascii.eqb c LF || Ascii.eqb c CR then None
      else if Ascii.eqb c backslash then
        match rest with
        | EmptyString => None
        | String e rest' =>
            match unescape e, string_literal_body rest' with
            | Some ch, Some (v, after) => Some (String ch v, after)
            | _, _ => None
            end
        end
      else
        match string_literal_body rest with
        | Some (v, after) => Some (String c v, after)
        | None => None
        end
  end.

(** [strip_prefix p s] is what follows [p] in [s], when [s] starts with [p]. *)
Fixpoint strip_prefix (p s : string) : option string :=
  match p, s with
  | EmptyString, _ => Some s
  | String a p', String b s' => if Ascii.eqb a b then strip_prefix p' s' else None
  | String _ _, EmptyString => None
  end.

(** One of the field names of a location record, and what follows it. *)
Definition field_name (s : string) : option (string * string) :=
  match strip_prefix "location" s with
  | Some r => Some ("location", r)
  | None =>
      match strip_prefix "platform" s with
      | Some r => Some ("platform", r)
      | None =>
          match strip_prefix "arch" s with
          | Some r => Some ("arch", r)
          | None => None
          end
      end
  end.

(** One line of the form [module.exports.<field> = "<literal>"]. *)
Definition parse_assignment (line : string) : option (string * string) :=
  s1 ← strip_prefix "module.exports." line;
  '(field, s2) ← field_name s1;
  s3 ← strip_prefix " = " s2;
  s4 ← strip_prefix (String dquote EmptyString) s3;
  '(value, after) ← string_literal_body s4;
  match after with
  | EmptyString => Some (field, value)
  | String _ _ => None
  end.

(** The lines of a text in which every line ends with a line feed. *)
Fixpoint split_lines (s : string) : option (list string) :=
  match s with
  | EmptyString => Some []
  | String c rest =>
      if Ascii.eqb c LF then cons EmptyString <$> split_lines rest
      else match split_lines rest with
           | Some (l :: ls) => Some (String c l :: ls)
           | _ => None
           end
  end.

(** Runs the assignments in order on the exports object. *)
Fixpoint run_assignments (lines : list string) (m : exports) : option exports :=
  match lines with
  | [] => Some m
  | l :: ls =>
      match parse_assignment l with
      | Some (field, value) => run_assignments ls (<[field := value]> m)
      | None => None
      end
  end.

(** The exports of a module whose source is a sequence of such lines; [None]
    for any other text. *)
Definition parse_location_module (src : string) : option exports :=
  lines ← split_lines src; run_assignments lines ∅.

(** A module loader agrees with JavaScript on location modules when it
    evaluates the file [filename] as [parse_location_module] reads it. *)
Definition evaluates_location_modules (node : Node) (filename : string) : Prop :=
  forall src m, parse_location_module src = Some m ->
                eval_module node filename src = Normal m.

(** ** A sample runtime *)

(** Whether a [/] occurs in the string. *)
Fixpoint has_slash (s : string) : bool :=
  match s with
  | EmptyString => false
  | String c rest => Ascii.eqb c "/" || has_slash rest
  end.

(** The directory part of a path of the form [dir/name]. *)
Fixpoint sample_dirname (p : string) : string :=
  match p with
  | EmptyString => EmptyString
  | String c rest =>
      if has_slash rest then String c (sample_dirname rest) else EmptyString
  end.

Definition sample_join (a b : string) : string := a +:+ "/" +:+ b.

Definition sample_resolve (a b : string) : string :=
  if String.prefix "/" b then b else a +:+ "/" +:+ b.

Definition is_file (f : gmap string fsnode) (p : string) : bool :=
  match f !! p with
  | Some (File _) => true
  | _ => false
  end.

(** A request names the file itself, or the file with [.js] appended. *)
Definition sample_require_resolve (f : gmap string fsnode) (request : string)
  : option string :=
  if is_file f request then Some request
  else if is_file f (request +:+ ".js") then Some (request +:+ ".js")
  else None.

(** Runs a location module; any other source is a syntax error. *)
Definition sample_eval_module (filename src : string) : completion exports :=
  match parse_location_module src with
  | Some m => Normal m
  | None => Throw (Error "SyntaxError" filename)
  end.

(** A stand-in for Node on a POSIX host, enough to run the installer's own
    files: paths are joined with [/] and are not normalised, the digest is a
    stand-in that tags the data, and a location module prints nothing. *)
Definition sample_node : Node :=
  mkNode (fun data => "sha256:" +:+ data)
         sample_resolve sample_dirname sample_join
         sample_require_resolve sample_eval_module
         (fun _ _ => []).

(** A runtime in which every module announces itself on the console while it
    loads, and which is [sample_node] otherwise. *)
Definition chatty_node : Node :=
  mkNode (sha256_hex sample_node)
         sample_resolve sample_dirname sample_join
         sample_require_resolve sample_eval_module
         (fun filename _ => [ConsoleLog [LStr "loading"; LStr filename]]).

(** ** Sample worlds *)

(** A subprocess table in which nothing can be run. *)
Definition no_subprocess (file : string) (args : list string) : completion string :=
  Throw (Error "ENOENT" file).

(** A bare host: the given environment, platform and architecture, an empty
    file system. *)
Definition bare_world (e : gmap string string) (platform arch : string) : World :=
  mkWorld e platform arch ∅ ∅ no_subprocess ∅ [].

(** A binary that prints the version 2.1.1 when asked, at the given path. *)
Definition phantom_at (binary : string) (file : string) (args : list string)
  : completion string :=
  if String.eqb file binary then
    match args with
    | [flag] => if String.eqb flag "--version"
                then Normal ("2.1.1" +:+ String LF EmptyString)
                else Throw (Error "EXIT" file)
    | _ => Throw (Error "EXIT" file)
    end
  else Throw (Error "ENOENT" file).

(** A linux/x64 host on which [/pkg/lib/location.js] was written for
    darwin/x64; the binary it names exists and runs, with the right
    version. *)
Definition foreign_install : World :=
  mkWorld ∅ "linux" "x64"
    {[ "/pkg/lib/location.js" :=
         File (assignment_line "location" "phantom/bin/phantomjs"
               +:+ assignment_line "platform" "darwin"
               +:+ assignment_line "arch" "x64");
       "/pkg/lib/phantom/bin/phantomjs" := File "ELF" ]}
    ∅ (phantom_at "/pkg/lib/phantom/bin/phantomjs") ∅ [].

(** An install for win32 prepared on a POSIX host: the target platform is
    overridden, and the binary sits in a file whose name has a backslash. *)
Definition win32_target_host : World :=
  mkWorld {[ "PHANTOMJS_PLATFORM" := "win32" ]} "linux" "x64"
    {[ "/pkg/lib/phantom\phantomjs.exe" := File "MZ" ]}
    ∅ (phantom_at "/pkg/lib/phantom\phantomjs.exe") ∅ [].

Definition win32_target_written : World :=
  snd (writeLocationFile sample_node "/pkg/lib" "phantom\phantomjs.exe"
         win32_target_host).

(** A linux host on which the architecture is overridden with a name that
    has an underscore; the binary exists and reports the right version. *)
Definition underscore_arch_host : World :=
  mkWorld {[ "PHANTOMJS_ARCH" := "x86_64" ]} "linux" "x64"
    {[ "/pkg/lib/phantom/bin/phantomjs" := File "ELF" ]}
    ∅ (phantom_at "/pkg/lib/phantom/bin/phantomjs") ∅ [].

(** A linux/x64 host whose binary sits in a directory with a double quote in
    its name. *)
Definition quoted_location : string :=
  "phantom" +:+ String dquote "s/phantomjs".

Definition quoted_dir_host : World :=
  mkWorld ∅ "linux" "x64"
    {[ "/pkg/lib/" +:+ quoted_location := File "ELF" ]}
    ∅ (phantom_at ("/pkg/lib/" +:+ quoted_location)) ∅ [].

(** A linux/x64 host whose binary sits in a file with a backslash in its
    name. *)
Definition backslash_name_host : World :=
  mkWorld ∅ "linux" "x64"
    {[ "/pkg/lib/phantom\phantomjs" := File "ELF" ]}
    ∅ (phantom_at "/pkg/lib/phantom\phantomjs") ∅ [].

(** A linux/x64 process that has already loaded a location module naming an
    old binary; the old and the new binary both exist and run. *)
Definition probed_before_host : World :=
  mkWorld ∅ "linux" "x64"
    {[ "/pkg/lib/old/phantomjs" := File "ELF";
       "/pkg/lib/new/phantomjs" := File "ELF" ]}
    ∅
    (fun file args =>
       if String.eqb file "/pkg/lib/old/phantomjs"
       then phantom_at "/pkg/lib/old/phantomjs" file args
       else phantom_at "/pkg/lib/new/phantomjs" file args)
    {[ "/pkg/lib/location.js" :=
         <["arch" := "x64"]>
           (<["platform" := "linux"]> (<["location" := "old/phantomjs"]> ∅)) ]}
    [].

(** The probe of [/pkg/lib/location] after [location] was written from
    [/pkg/lib] in [w]: what it settles with. *)
Definition probe_after_write (location : string) (w : World)
  : completion (promise jsval) :=
  fst (findValidPhantomJsBinary sample_node "2.1.1" "/pkg/lib/location"
         (snd (writeLocationFile sample_node "/pkg/lib" location w))).

(** ** The binary a probe runs *)

(** The resolved location whose version the probe goes on to check: the
    record loads, has a location that is not empty, names the current
    target, and something exists at the resolved location. *)
Definition probe_target (node : Node) (libPath : string) (w : World) : option string :=
  match require node libPath w with
  | (Normal libModule, _) =>
      match libModule !! "location" with
      | Some location =>
          if str_truthy location
             && js_eq_str (getTargetPlatform w) (libModule !! "platform")
             && js_eq_str (getTargetArch w) (libModule !! "arch")
          then
            let resolvedLocation :=
              path_resolve node (path_dirname node libPath) location in
            match fs w !! resolvedLocation with
            | Some _ => Some resolvedLocation
            | None => None
            end
          else None
      | None => None
      end
  | (Throw _, _) => None
  end.

(** A string of white space only. *)
Fixpoint all_space (s : string) : bool :=
  match s with
  | EmptyString => true
  | String c rest => is_js_space c && all_space rest
  end.

(** A linux/x64 host with an install of its own: the record names linux/x64
    and a binary that exists and reports the right version. *)
Definition own_install : World :=
  mkWorld ∅ "linux" "x64"
    {[ "/pkg/lib/location.js" :=
         File (assignment_line "location" "phantom/bin/phantomjs"
               +:+ assignment_line "platform" "linux"
               +:+ assignment_line "arch" "x64");
       "/pkg/lib/phantom/bin/phantomjs" := File "ELF" ]}
    ∅ (phantom_at "/pkg/lib/phantom/bin/phantomjs") ∅ [].

(** A file name with a NUL character: [a], NUL, [b]. *)
Definition nul_file_name : string := String "a" (String (ascii_of_N 0) "b").

(** A host on which [/pkg/lib/location.js] cannot be written. *)
Definition read_only_lib : World :=
  mkWorld ∅ "linux" "x64" ∅ {[ "/pkg/lib/location.js" ]} no_subprocess ∅ [].

(** * Properties *)

(** ** Running the monad *)

(** Unfolds the sequencing of [JS] and the promise combinators, so that a run
    reduces to a case analysis on what the world answers. *)
Ltac js_run :=
  unfold mbind, mret, JS_bind, JS_ret, js_bind, js_ret, js_gets, js_modify,
    kew_fcall, kew_then, kew_fail, kew_resolve, settle, adopt,
    console_log, console_error in *;
  simpl in *.

(** ** The target and the download table *)

Lemma js_or_spec (o : option string) (d : string) :
  js_or o d = match o with
              | Some v => if decide (v = EmptyString) then d else v
              | None => d
              end.
Proof.
  destruct o as [v|]; [|reflexivity].
  destruct v as [|c v]; simpl.
  - destruct (decide (EmptyString = EmptyString)); congruence.
  - destruct (decide (String c v = EmptyString)); congruence.
Qed.

(** C5, as the code has it: the target platform is the value of the
    environment variable [PHANTOMJS_PLATFORM] when that variable is set to a
    string that is not empty, and the platform the host process reports
    otherwise; the target architecture is read in the same way from
    [PHANTOMJS_ARCH] and the architecture of the host process. *)
Theorem getTarget_env_override (w : World) :
  getTargetPlatform w =
    match env w !! "PHANTOMJS_PLATFORM" with
    | Some v => if decide (v = EmptyString) then process_platform w else v
    | None => process_platform w
    end
  /\ getTargetArch w =
    match env w !! "PHANTOMJS_ARCH" with
    | Some v => if decide (v = EmptyString) then process_arch w else v
    | None => process_arch w
    end.
Proof. split; apply js_or_spec. Qed.

(** C5, as the specification words it, fails: on a linux/x64 host where
    [TARGET_PLATFORM] is [win32] and [TARGET_ARCHITECTURE] is [arm64], the
    code reads neither variable and answers with the host's values. *)
Lemma getTarget_ignores_TARGET_variables :
  let w := bare_world {[ "TARGET_PLATFORM" := "win32";
                         "TARGET_ARCHITECTURE" := "arm64" ]} "linux" "x64" in
  (spec_getTargetPlatform w = "win32" /\ getTargetPlatform w = "linux"
   /\ getTargetPlatform w <> spec_getTargetPlatform w)
  /\ (spec_getTargetArch w = "arm64" /\ getTargetArch w = "x64"
      /\ getTargetArch w <> spec_getTargetArch w).
Proof. vm_compute. repeat split; discriminate. Qed.

(** A variable that is set to the empty string does not override either. *)
Example getTargetPlatform_empty_override :
  getTargetPlatform (bare_world {[ "PHANTOMJS_PLATFORM" := EmptyString ]} "linux" "x64")
  = "linux".
Proof. reflexivity. Qed.

(** C2: for the target linux/arm64 the download URL has the plain [http]
    scheme and the private address 10.0.6.161 as its host, whereas the URL
    of a darwin target is an [https] URL on github.com. *)
Theorem getDownloadSpec_linux_arm64_plain_http (version : string) (w wd : World) :
  getTargetPlatform w = "linux" ->
  getTargetArch w = "arm64" ->
  getTargetPlatform wd = "darwin" ->
  (exists spec, getDownloadSpec version w = Some spec
     /\ url_scheme (url spec) = Some "http"
     /\ url_host (url spec) = Some "10.0.6.161"
     /\ is_private_ipv4 "10.0.6.161" = true)
  /\ (exists spec, getDownloadSpec version wd = Some spec
     /\ url_scheme (url spec) = Some "https"
     /\ url_host (url spec) = Some "github.com"
     /\ is_private_ipv4 "github.com" = false).
Proof.
  intros Hp Ha Hd. unfold getDownloadSpec. rewrite Hp, Ha, Hd. simpl.
  split; eexists; (split; [reflexivity|]); repeat split.
Qed.

Lemma getDownloadSpec_linux_arm64_plain_http_witness :
  let w := bare_world ∅ "linux" "arm64" in
  let wd := bare_world {[ "PHANTOMJS_PLATFORM" := "darwin" ]} "linux" "arm64" in
  exists spec, getDownloadSpec "2.1.1" w = Some spec
     /\ url_scheme (url spec) = Some "http"
     /\ url_host (url spec) = Some "10.0.6.161".
Proof.
  intros w wd.
  destruct (getDownloadSpec_linux_arm64_plain_http "2.1.1" w wd
              eq_refl eq_refl eq_refl) as [(spec & H & Hs & Hh & _) _].
  exists spec. auto.
Defined.

(** C3: every entry of the download table has a URL that is not empty and a
    checksum of exactly 64 hexadecimal digits. *)
Theorem getDownloadSpec_wellformed (version : string) (w : World) (spec : DownloadSpec) :
  getDownloadSpec version w = Some spec ->
  url spec <> EmptyString
  /\ String.length (checksum spec) = 64
  /\ all_hex (checksum spec) = true.
Proof.
  unfold getDownloadSpec.
  destruct (String.eqb _ "linux" && String.eqb _ "arm64").
  - intros [= <-]. simpl. repeat split. discriminate.
  - destruct (String.eqb _ "darwin"); [|discriminate].
    intros [= <-]. simpl. repeat split. discriminate.
Qed.

Lemma getDownloadSpec_wellformed_witness :
  exists spec, getDownloadSpec "2.1.1" (bare_world ∅ "darwin" "x64") = Some spec
    /\ url spec <> EmptyString
    /\ String.length (checksum spec) = 64
    /\ all_hex (checksum spec) = true.
Proof.
  eexists. split; [reflexivity|].
  apply (getDownloadSpec_wellformed "2.1.1" (bare_world ∅ "darwin" "x64")).
  reflexivity.
Defined.

(** C4: a target whose platform is not darwin and which is not linux/arm64
    has no download: the result is [null]. *)
Theorem getDownloadSpec_unsupported (version : string) (w : World) :
  getTargetPlatform w <> "darwin" ->
  ~ (getTargetPlatform w = "linux" /\ getTargetArch w = "arm64") ->
  getDownloadSpec version w = None.
Proof.
  intros Hd Hl. unfold getDownloadSpec.
  destruct (String.eqb_spec (getTargetPlatform w) "linux") as [Hp|Hp];
    destruct (String.eqb_spec (getTargetArch w) "arm64") as [Ha|Ha]; simpl;
    try (exfalso; apply Hl; split; assumption);
    destruct (String.eqb_spec (getTargetPlatform w) "darwin"); congruence.
Qed.

Lemma getDownloadSpec_unsupported_witness :
  getDownloadSpec "2.1.1" (bare_world ∅ "linux" "x64") = None.
Proof.
  apply getDownloadSpec_unsupported.
  - vm_compute. discriminate.
  - vm_compute. intros [_ H]. discriminate H.
Defined.

(** ** The checksum verifier *)

(** C1, where the code departs from it: [hasha.fromFile] is called while the
    argument of [kew.resolve] is evaluated, before there is a promise, so
    what that call throws is not seen by the [fail] handler.  For a file
    name with a NUL character [verifyChecksum] throws to its caller: no
    promise is returned, nothing is logged and the world is unchanged. *)
Theorem verifyChecksum_throws_on_nul (node : Node) (w : World)
    (fileName checksum : string) :
  has_nul fileName = true ->
  exists e, verifyChecksum node fileName checksum w = (Throw e, w).
Proof.
  intros Hn. unfold verifyChecksum, hasha_fromFile. js_run. rewrite Hn.
  eexists. reflexivity.
Qed.

Lemma verifyChecksum_throws_on_nul_witness :
  has_nul nul_file_name = true
  /\ exists e, verifyChecksum sample_node nul_file_name "00" (bare_world ∅ "linux" "x64")
               = (Throw e, bare_world ∅ "linux" "x64").
Proof.
  split; [reflexivity|].
  apply (verifyChecksum_throws_on_nul sample_node (bare_world ∅ "linux" "x64")
           nul_file_name "00").
  reflexivity.
Defined.

(** The run on the file name [a], NUL, [b], with the exception that reaches
    the caller. *)
Example verifyChecksum_nul_file_name :
  verifyChecksum sample_node nul_file_name "00" (bare_world ∅ "linux" "x64")
  = (Throw (Error "ERR_INVALID_ARG_VALUE" nul_file_name), bare_world ∅ "linux" "x64").
Proof. reflexivity. Qed.

(** On a host without the file the verifier settles with [false] and reports
    the failure on the console. *)
Example verifyChecksum_missing_file :
  let w := bare_world ∅ "linux" "x64" in
  let r := verifyChecksum sample_node "/tmp/phantomjs.zip" "00" w in
  fst r = Normal (Fulfilled false)
  /\ console (snd r)
     = [ConsoleError [LStr "Failed to verify checksum: ";
                      LErr (Error "ENOENT" "/tmp/phantomjs.zip")]].
Proof. vm_compute. split; reflexivity. Qed.

(** ** The version verifier *)

(** The only trace a version check leaves is on the console. *)
Lemma checkPhantomjsVersion_run (version : string) (w : World) (p : string) :
  exists l, checkPhantomjsVersion version p w
            = (Normal (Fulfilled (version_matches version w p)), with_console l w).
Proof.
  unfold checkPhantomjsVersion, kew_nfcall_execFile, version_matches. js_run.
  destruct (subprocess w p ["--version"]) as [stdout|e]; simpl.
  - destruct (String.eqb version (trim stdout)); simpl; eexists; reflexivity.
  - eexists; reflexivity.
Qed.

(** C8: [checkPhantomjsVersion] always settles fulfilled, with a boolean that
    is [true] exactly when the subprocess run with [--version] succeeds and
    its trimmed standard output is the expected version. *)
Theorem checkPhantomjsVersion_spec (version : string) (w : World) (phantomPath : string) :
  exists (b : bool) (w' : World),
    checkPhantomjsVersion version phantomPath w = (Normal (Fulfilled b), w')
    /\ (b = true <->
        exists stdout, subprocess w phantomPath ["--version"] = Normal stdout
                       /\ trim stdout = version)
    /\ (forall e, subprocess w phantomPath ["--version"] = Throw e -> b = false)
    /\ (forall stdout, subprocess w phantomPath ["--version"] = Normal stdout ->
                       trim stdout <> version -> b = false).
Proof.
  unfold checkPhantomjsVersion, kew_nfcall_execFile. js_run.
  destruct (subprocess w phantomPath ["--version"]) as [stdout|e] eqn:Hs; simpl.
  - destruct (String.eqb_spec version (trim stdout)) as [He|He];
      simpl; eexists; eexists; (split; [reflexivity|]); (split; [|split]).
    + split; [|reflexivity]. intros _. exists stdout. auto.
    + discriminate.
    + intros s [= <-] Hd. congruence.
    + split; [discriminate|]. intros (s & [= <-] & Hd). congruence.
    + reflexivity.
    + reflexivity.
  - eexists; eexists; (split; [reflexivity|]); (split; [|split]).
    + split; [discriminate|]. intros (s & Hd & _). discriminate.
    + reflexivity.
    + reflexivity.
Qed.

(** The line feed after the version is trimmed before the comparison. *)
Example checkPhantomjsVersion_trims :
  fst (checkPhantomjsVersion "2.1.1" "/pkg/lib/phantom/bin/phantomjs" foreign_install)
  = Normal (Fulfilled true)
  /\ fst (checkPhantomjsVersion "2.1.0" "/pkg/lib/phantom/bin/phantomjs" foreign_install)
    = Normal (Fulfilled false)
  /\ fst (checkPhantomjsVersion "2.1.1" "/usr/bin/phantomjs" foreign_install)
    = Normal (Fulfilled false).
Proof. vm_compute. repeat split. Qed.

(** ** The probe of an existing install *)

(** Loading a module changes nothing but the module cache and the console,
    which only grows. *)
Lemma require_world (node : Node) (request : string) (w w1 : World)
    (c : completion exports) :
  require node request w = (c, w1) ->
  exists mc l, w1 = with_console ((l ++ console w)%list) (with_module_cache mc w).
Proof.
  assert (Hsame : w = with_console (([] ++ console w)%list)
                        (with_module_cache (module_cache w) w))
    by (destruct w; reflexivity).
  unfold require. intros H.
  destruct (require_resolve node (fs w) request) as [f|];
    [|injection H as <- <-; eauto].
  destruct (module_cache w !! f); [injection H as <- <-; eauto|].
  destruct (fs w !! f) as [[src|]|]; try (injection H as <- <-; eauto).
  destruct (eval_module node f src); injection H as <- <-.
  - eexists _, _. reflexivity.
  - exists (module_cache w), (module_output node f src). reflexivity.
Qed.

(** The probe always settles fulfilled, with [probe_value]. *)
Lemma findValidPhantomJsBinary_run (node : Node) (version : string)
    (libPath : string) (w : World) :
  exists w', findValidPhantomJsBinary node version libPath w
             = (Normal (Fulfilled (probe_value node version libPath w)), w').
Proof.
  unfold findValidPhantomJsBinary, probe_value.
  unfold mbind at 1. unfold JS_bind, js_bind, kew_fcall, settle.
  unfold mbind at 1. unfold JS_bind, js_bind.
  destruct (require node libPath w) as [[m|e] w1] eqn:Hr;
    [|js_run; eexists; reflexivity].
  destruct (require_world _ _ _ _ _ Hr) as (mc & l0 & ->).
  set (w1 := with_console ((l0 ++ console w)%list) (with_module_cache mc w)).
  js_run.
  destruct (m !! "location") as [location|]; [|js_run; eexists; reflexivity].
  change (getTargetPlatform w1) with (getTargetPlatform w).
  change (getTargetArch w1) with (getTargetArch w).
  destruct (str_truthy location && js_eq_str (getTargetPlatform w) (m !! "platform")
            && js_eq_str (getTargetArch w) (m !! "arch"));
    [|js_run; eexists; reflexivity].
  unfold fs_statSync. simpl.
  change (fs w1) with (fs w).
  destruct (fs w !! path_resolve node (path_dirname node libPath) location);
    [|js_run; eexists; reflexivity].
  destruct (checkPhantomjsVersion_run version w1
              (path_resolve node (path_dirname node libPath) location)) as [l ->].
  change (version_matches version w1) with (version_matches version w).
  destruct (version_matches version w _); simpl; eexists; reflexivity.
Qed.

Lemma js_eq_str_spec (a : string) (b : option string) :
  js_eq_str a b = true <-> b = Some a.
Proof.
  destruct b as [s|]; simpl.
  - rewrite String.eqb_eq. split; congruence.
  - split; discriminate.
Qed.

(** C6: when the loaded record names a platform or an architecture other
    than the current target's, or names none, the probe settles with
    [false], whatever is at the recorded location. *)
Theorem findValidPhantomJsBinary_wrong_target (node : Node) (version libPath : string)
    (w w1 : World) (m : exports) :
  require node libPath w = (Normal m, w1) ->
  m !! "platform" <> Some (getTargetPlatform w)
    \/ m !! "arch" <> Some (getTargetArch w) ->
  exists w', findValidPhantomJsBinary node version libPath w
             = (Normal (Fulfilled (JBool false)), w')
             /\ truthy (JBool false) = false.
Proof.
  intros Hr Hne.
  destruct (findValidPhantomJsBinary_run node version libPath w) as [w' ->].
  exists w'. split; [|reflexivity]. do 2 f_equal. f_equal.
  unfold probe_value. rewrite Hr.
  destruct (m !! "location") as [location|]; [|reflexivity].
  rewrite <- andb_assoc.
  replace (js_eq_str (getTargetPlatform w) (m !! "platform")
           && js_eq_str (getTargetArch w) (m !! "arch")) with false.
  - rewrite andb_false_r. reflexivity.
  - symmetry. apply andb_false_iff.
    destruct Hne as [H|H]; [left|right];
      apply not_true_is_false; intros Heq; apply H, js_eq_str_spec, Heq.
Qed.

Lemma findValidPhantomJsBinary_wrong_target_witness :
  is_Some (fs foreign_install !! "/pkg/lib/phantom/bin/phantomjs")
  /\ exists w', findValidPhantomJsBinary sample_node "2.1.1" "/pkg/lib/location"
                  foreign_install
                = (Normal (Fulfilled (JBool false)), w')
                /\ truthy (JBool false) = false.
Proof.
  split; [vm_compute; eauto|].
  eapply (findValidPhantomJsBinary_wrong_target sample_node "2.1.1"
            "/pkg/lib/location" foreign_install).
  - vm_compute. reflexivity.
  - left. vm_compute. discriminate.
Defined.

(** C7: the probe never rejects.  It settles with a falsy value or with the
    recorded location resolved against the directory of the record; a record
    that does not load and a resolved path at which nothing exists both give
    [false]. *)
Theorem findValidPhantomJsBinary_never_rejects (node : Node) (version libPath : string)
    (w : World) :
  exists (v : jsval) (w' : World),
    findValidPhantomJsBinary node version libPath w = (Normal (Fulfilled v), w')
    /\ (truthy v = false
        \/ exists m w1 location,
             require node libPath w = (Normal m, w1)
             /\ m !! "location" = Some location
             /\ v = JStr (path_resolve node (path_dirname node libPath) location))
    /\ (forall e w1, require node libPath w = (Throw e, w1) -> v = JBool false)
    /\ (forall m w1 location,
          require node libPath w = (Normal m, w1) ->
          m !! "location" = Some location ->
          fs w !! path_resolve node (path_dirname node libPath) location = None ->
          v = JBool false).
Proof.
  destruct (findValidPhantomJsBinary_run node version libPath w) as [w' Hrun].
  exists (probe_value node version libPath w), w'.
  split; [exact Hrun|]. unfold probe_value.
  destruct (require node libPath w) as [[m|e] w1] eqn:Hr.
  - split; [|split].
    + destruct (m !! "location") as [location|] eqn:Hl; [|left; reflexivity].
      destruct (_ && _); [|left; reflexivity].
      destruct (fs w !! _); [|left; reflexivity].
      destruct (version_matches _ _ _); [|left; reflexivity].
      right. exists m, w1, location. auto.
    + intros e w2 [=].
    + intros m' w2 location [= <- <-] -> Hnone.
      destruct (_ && _); [|reflexivity]. simpl. rewrite Hnone. reflexivity.
  - split; [left; reflexivity|]. split; [reflexivity|].
    intros m w2 location [=].
Qed.

(** ** The metadata writer *)

Lemma test_alnum_false (s : string) :
  test_alnum s = false <-> has_non_alnum s.
Proof.
  unfold has_non_alnum. induction s as [|c s IH]; simpl.
  - split; [discriminate|]. intros (c & [] & _).
  - rewrite andb_false_iff, IH. split.
    + intros [Hc|(d & Hin & Hd)]; [exists c|exists d]; auto.
    + intros (d & [<-|Hin] & Hd); [left|right; exists d]; auto.
Qed.


(** A write that succeeds changes the one file and the console. *)
Lemma writeLocationFile_run (node : Node) (libPath location : string) (w w1 : World) :
  writeLocationFile node libPath location w = (Normal tt, w1) ->
  w1 = with_fs (<[path_join node libPath "location.js"
                  := File (location_file_contents location w)]> (fs w))
         (with_console (ConsoleLog [LStr "Writing location.js file"] :: console w) w).
Proof.
  unfold writeLocationFile, fs_writeFileSync. js_run.
  destruct (bool_decide _); [discriminate|].
  destruct (fs w !! path_join node libPath "location.js") as [[d|]|];
    try discriminate; intros [= <-]; reflexivity.
Qed.



(** ** Writing a record and reading it back *)

Lemma append_assoc (a b c : string) : (a +:+ b) +:+ c = a +:+ (b +:+ c).
Proof.
  induction a as [|x a IH]; [reflexivity|].
  change (String x ((a +:+ b) +:+ c) = String x (a +:+ (b +:+ c))).
  rewrite IH. reflexivity.
Qed.

Lemma literal_body_cons (c : ascii) (rest : string) :
  literal_char c = true ->
  string_literal_body (String c rest)
  = match string_literal_body rest with
    | Some (v, after) => Some (String c v, after)
    | None => None
    end.
Proof.
  unfold literal_char. rewrite !andb_true_iff, !negb_true_iff.
  intros [[[Hq Hl] Hr] Hb]. simpl. rewrite Hq, Hl, Hr, Hb. reflexivity.
Qed.

Lemma literal_body_backslash (rest : string) :
  string_literal_body (String backslash (String backslash rest))
  = match string_literal_body rest with
    | Some (v, after) => Some (String backslash v, after)
    | None => None
    end.
Proof. reflexivity. Qed.

(** Unescaped text without quote, line end or backslash reads back as
    itself. *)
Lemma literal_body_plain (s after : string) :
  survives_quoting false s = true ->
  string_literal_body (s +:+ String dquote after) = Some (s, after).
Proof.
  induction s as [|c s IH]; intros H.
  - reflexivity.
  - simpl in H. rewrite orb_false_r in H. apply andb_true_iff in H as [Hc Hs].
    change (String c s +:+ String dquote after)
      with (String c (s +:+ String dquote after)).
    rewrite (literal_body_cons _ _ Hc), (IH Hs). reflexivity.
Qed.

(** Text whose backslashes were doubled reads back as the original. *)
Lemma literal_body_escaped (s after : string) :
  survives_quoting true s = true ->
  string_literal_body (escape_backslashes s +:+ String dquote after) = Some (s, after).
Proof.
  induction s as [|c s IH]; intros H.
  - reflexivity.
  - simpl in H. apply andb_true_iff in H as [Hc Hs]. simpl.
    destruct (Ascii.eqb_spec c backslash) as [->|Hne].
    + change (String backslash (String backslash (escape_backslashes s))
              +:+ String dquote after)
        with (String backslash (String backslash
                (escape_backslashes s +:+ String dquote after))).
      rewrite literal_body_backslash, (IH Hs). reflexivity.
    + rewrite orb_false_r in Hc.
      change (String c (escape_backslashes s) +:+ String dquote after)
        with (String c (escape_backslashes s +:+ String dquote after)).
      rewrite (literal_body_cons _ _ Hc), (IH Hs). reflexivity.
Qed.

(** What is put between the quotes reads back as the location. *)
Lemma written_location_reads_back (w : World) (location after : string) :
  survives_quoting (String.eqb (getTargetPlatform w) "win32") location = true ->
  string_literal_body (written_location w location +:+ String dquote after)
  = Some (location, after).
Proof.
  unfold written_location.
  destruct (String.eqb (getTargetPlatform w) "win32").
  - apply literal_body_escaped.
  - apply literal_body_plain.
Qed.

Lemma assignment_line_text (field value : string) :
  assignment_line field value = assignment_text field value +:+ String LF EmptyString.
Proof.
  unfold assignment_line, assignment_text.
  rewrite !append_assoc. reflexivity.
Qed.

Lemma no_line_feed_app (a b : string) :
  no_line_feed (a +:+ b) = no_line_feed a && no_line_feed b.
Proof.
  induction a as [|c a IH]; [reflexivity|].
  change (negb (Ascii.eqb c LF) && no_line_feed (a +:+ b)
          = negb (Ascii.eqb c LF) && no_line_feed a && no_line_feed b).
  rewrite IH, andb_assoc. reflexivity.
Qed.

Lemma split_lines_line (l rest : string) :
  no_line_feed l = true ->
  split_lines (l +:+ String LF rest) = cons l <$> split_lines rest.
Proof.
  induction l as [|c l IH]; intros H.
  - reflexivity.
  - simpl in H. apply andb_true_iff in H as [Hc Hl].
    apply negb_true_iff in Hc.
    change (String c l +:+ String LF rest) with (String c (l +:+ String LF rest)).
    simpl. rewrite Hc, (IH Hl). destruct (split_lines rest); reflexivity.
Qed.

Lemma is_alnum_literal_char (c : ascii) : is_alnum c = true -> literal_char c = true.
Proof.
  destruct c as [[] [] [] [] [] [] [] []]; vm_compute; congruence.
Qed.

Lemma test_alnum_survives (s : string) :
  test_alnum s = true -> survives_quoting false s = true.
Proof.
  induction s as [|c s IH]; [reflexivity|]. simpl.
  rewrite !andb_true_iff, orb_false_r. intros [Hc Hs].
  split; [apply is_alnum_literal_char, Hc|apply IH, Hs].
Qed.

Lemma survives_no_line_feed (escaped : bool) (s : string) :
  survives_quoting escaped s = true -> no_line_feed s = true.
Proof.
  induction s as [|c s IH]; [reflexivity|]. simpl.
  rewrite !andb_true_iff. intros [Hc Hs]. split; [|apply IH, Hs].
  destruct (Ascii.eqb_spec c LF) as [->|]; [|reflexivity].
  destruct escaped; discriminate Hc.
Qed.

Lemma escape_backslashes_no_line_feed (s : string) :
  no_line_feed s = true -> no_line_feed (escape_backslashes s) = true.
Proof.
  induction s as [|c s IH]; [reflexivity|]. simpl.
  rewrite andb_true_iff. intros [Hc Hs].
  destruct (Ascii.eqb c backslash); simpl; rewrite ?Hc, (IH Hs); reflexivity.
Qed.

Lemma written_location_no_line_feed (w : World) (location : string) :
  survives_quoting (String.eqb (getTargetPlatform w) "win32") location = true ->
  no_line_feed (written_location w location) = true.
Proof.
  intros H. apply survives_no_line_feed in H. unfold written_location.
  destruct (String.eqb _ _); [apply escape_backslashes_no_line_feed|]; exact H.
Qed.

Lemma assignment_text_no_line_feed (field value : string) :
  known_field field -> no_line_feed value = true ->
  no_line_feed (assignment_text field value) = true.
Proof.
  intros Hf Hv. unfold assignment_text.
  change (String dquote value +:+ String dquote EmptyString)
    with (String dquote EmptyString +:+ value +:+ String dquote EmptyString).
  rewrite !no_line_feed_app, Hv.
  destruct Hf as [-> | [-> | ->]]; reflexivity.
Qed.

(** A statement whose literal reads as [v] assigns [v] to its field. *)
Lemma parse_assignment_text (field written v : string) :
  known_field field ->
  string_literal_body (written +:+ String dquote EmptyString) = Some (v, EmptyString) ->
  parse_assignment (assignment_text field written) = Some (field, v).
Proof.
  intros Hf Hv.
  assert (Hred : parse_assignment (assignment_text field written)
                 = '(value, after) ← string_literal_body (written +:+ String dquote EmptyString);
                   match after with
                   | EmptyString => Some (field, value)
                   | String _ _ => None
                   end)
    by (destruct Hf as [-> | [-> | ->]]; reflexivity).
  rewrite Hred, Hv. reflexivity.
Qed.

(** The module that the writer produces for an alphanumeric target and a
    location that survives quoting evaluates to the record it was written
    from. *)
Lemma location_file_reads_back (w : World) (location : string) :
  test_alnum (getTargetPlatform w) = true ->
  test_alnum (getTargetArch w) = true ->
  survives_quoting (String.eqb (getTargetPlatform w) "win32") location = true ->
  parse_location_module (location_file_contents location w)
  = Some (written_record w location).
Proof.
  intros Hp Ha Hl.
  assert (Hc : location_file_contents location w
               = assignment_text "location" (written_location w location)
                   +:+ String LF (assignment_text "platform" (getTargetPlatform w)
                   +:+ String LF (assignment_text "arch" (getTargetArch w)
                   +:+ String LF EmptyString))).
  { unfold location_file_contents. rewrite Hp, Ha. simpl andb. cbv iota.
    fold (written_location w location).
    change (?a = ?b) with
      (assignment_line "location" (written_location w location)
       +:+ assignment_line "platform" (getTargetPlatform w)
       +:+ assignment_line "arch" (getTargetArch w) = b).
    rewrite !assignment_line_text, !append_assoc. reflexivity. }
  unfold parse_location_module. rewrite Hc.
  rewrite !split_lines_line.
  2-4: apply assignment_text_no_line_feed;
       [unfold known_field; tauto
       | first [ apply written_location_no_line_feed, Hl
               | apply (survives_no_line_feed false), test_alnum_survives; assumption ] ].
  simpl.
  rewrite (parse_assignment_text "location" _ location),
          (parse_assignment_text "platform" _ (getTargetPlatform w)),
          (parse_assignment_text "arch" _ (getTargetArch w)).
  - reflexivity.
  - unfold known_field; tauto.
  - apply literal_body_plain, test_alnum_survives, Ha.
  - unfold known_field; tauto.
  - apply literal_body_plain, test_alnum_survives, Hp.
  - unfold known_field; tauto.
  - apply written_location_reads_back, Hl.
Qed.

Lemma written_record_lookup (w : World) (location : string) :
  written_record w location !! "location" = Some location
  /\ written_record w location !! "platform" = Some (getTargetPlatform w)
  /\ written_record w location !! "arch" = Some (getTargetArch w).
Proof.
  unfold written_record. repeat split.
Qed.

(** The sample runtime runs location modules as JavaScript does. *)
Lemma sample_node_evaluates (filename : string) :
  evaluates_location_modules sample_node filename.
Proof.
  intros src m H. unfold sample_node, sample_eval_module. simpl. rewrite H.
  reflexivity.
Qed.

(** C9, as the code has it: for a target whose platform and architecture
    are alphanumeric, and a location that is not empty, has no double quote
    and no line end, and has no backslash unless the target platform is
    win32, a successful [writeLocationFile] followed by a probe of the
    written module, not loaded before in the process, loads the record with
    the original location (on win32 the backslashes doubled on writing are
    read back as single ones) and, when the binary exists at the resolved
    location and reports the expected version, settles with that resolved
    location. *)
Theorem write_then_probe (node : Node) (version libPath probePath location : string)
    (w w1 : World) :
  let target := path_join node libPath "location.js" in
  let resolved := path_resolve node (path_dirname node probePath) location in
  evaluates_location_modules node target ->
  test_alnum (getTargetPlatform w) = true ->
  test_alnum (getTargetArch w) = true ->
  location <> EmptyString ->
  survives_quoting (String.eqb (getTargetPlatform w) "win32") location = true ->
  module_cache w !! target = None ->
  writeLocationFile node libPath location w = (Normal tt, w1) ->
  require_resolve node (fs w1) probePath = Some target ->
  is_Some (fs w1 !! resolved) ->
  (exists stdout, subprocess w1 resolved ["--version"] = Normal stdout
                  /\ trim stdout = version) ->
  (exists m w2, require node probePath w1 = (Normal m, w2)
                /\ m !! "location" = Some location)
  /\ exists w', findValidPhantomJsBinary node version probePath w1
                = (Normal (Fulfilled (JStr resolved)), w').
Proof.
  intros target resolved Heval Hp Ha Hne Hq Hcache Hwrite Hres Hfile Hver.
  apply writeLocationFile_run in Hwrite. fold target in Hwrite.
  destruct (written_record_lookup w location) as (Hl1 & Hl2 & Hl3).
  assert (Hreq : exists w2, require node probePath w1
                            = (Normal (written_record w location), w2)).
  { unfold require. rewrite Hres.
    assert (Hc1 : module_cache w1 !! target = None) by (subst w1; exact Hcache).
    assert (Hf1 : fs w1 !! target = Some (File (location_file_contents location w)))
      by (subst w1; apply lookup_insert_eq).
    rewrite Hc1, Hf1.
    rewrite (Heval _ _ (location_file_reads_back w location Hp Ha Hq)).
    eexists. reflexivity. }
  destruct Hreq as [w2 Hreq].
  split; [eauto|].
  destruct (findValidPhantomJsBinary_run node version probePath w1) as [w' ->].
  exists w'. do 2 f_equal. f_equal.
  unfold probe_value. rewrite Hreq, Hl1, Hl2, Hl3.
  assert (Hplat : getTargetPlatform w1 = getTargetPlatform w) by (subst w1; reflexivity).
  assert (Harch : getTargetArch w1 = getTargetArch w) by (subst w1; reflexivity).
  rewrite Hplat, Harch.
  rewrite (proj2 (js_eq_str_spec _ _) eq_refl), (proj2 (js_eq_str_spec _ _) eq_refl).
  destruct location as [|c l]; [contradiction Hne; reflexivity|].
  cbn [str_truthy andb]. fold resolved.
  destruct Hfile as [n ->].
  destruct Hver as (stdout & Hs & Ht).
  unfold version_matches. rewrite Hs, Ht, String.eqb_refl. reflexivity.
Qed.

Lemma write_then_probe_witness :
  fs win32_target_written !! "/pkg/lib/location.js"
  = Some (File (assignment_line "location" "phantom\\phantomjs.exe"
                +:+ assignment_line "platform" "win32"
                +:+ assignment_line "arch" "x64"))
  /\ (exists m w2, require sample_node "/pkg/lib/location" win32_target_written
                   = (Normal m, w2)
                   /\ m !! "location" = Some "phantom\phantomjs.exe")
  /\ exists w', findValidPhantomJsBinary sample_node "2.1.1" "/pkg/lib/location"
                  win32_target_written
                = (Normal (Fulfilled (JStr "/pkg/lib/phantom\phantomjs.exe")), w').
Proof.
  split; [vm_compute; reflexivity|].
  apply (write_then_probe sample_node "2.1.1" "/pkg/lib" "/pkg/lib/location"
           "phantom\phantomjs.exe" win32_target_host win32_target_written).
  - apply sample_node_evaluates.
  - vm_compute; reflexivity.
  - vm_compute; reflexivity.
  - discriminate.
  - vm_compute; reflexivity.
  - vm_compute; reflexivity.
  - vm_compute; reflexivity.
  - vm_compute; reflexivity.
  - vm_compute; eauto.
  - eexists. split; vm_compute; reflexivity.
Defined.

(** C9, as the specification words it, fails: on [underscore_arch_host] the
    record is written without its platform and arch lines, so the probe of
    the record just written compares the target with [undefined] and
    settles with [false], although the binary is valid. *)
Lemma write_then_probe_non_alnum_target :
  let w := underscore_arch_host in
  let w1 := snd (writeLocationFile sample_node "/pkg/lib" "phantom/bin/phantomjs" w) in
  let resolved := "/pkg/lib/phantom/bin/phantomjs" in
  evaluates_location_modules sample_node "/pkg/lib/location.js"
  /\ module_cache w !! "/pkg/lib/location.js" = None
  /\ writeLocationFile sample_node "/pkg/lib" "phantom/bin/phantomjs" w = (Normal tt, w1)
  /\ fs w1 !! "/pkg/lib/location.js"
     = Some (File (assignment_line "location" "phantom/bin/phantomjs"))
  /\ require_resolve sample_node (fs w1) "/pkg/lib/location" = Some "/pkg/lib/location.js"
  /\ path_resolve sample_node (path_dirname sample_node "/pkg/lib/location")
       "phantom/bin/phantomjs" = resolved
  /\ is_Some (fs w1 !! resolved)
  /\ (exists stdout, subprocess w1 resolved ["--version"] = Normal stdout
                     /\ trim stdout = "2.1.1")
  /\ (exists w', findValidPhantomJsBinary sample_node "2.1.1" "/pkg/lib/location" w1
                 = (Normal (Fulfilled (JBool false)), w'))
  /\ ~ (exists w', findValidPhantomJsBinary sample_node "2.1.1" "/pkg/lib/location" w1
                   = (Normal (Fulfilled (JStr resolved)), w')).
Proof.
  intros w w1 resolved.
  split; [apply sample_node_evaluates|].
  split; [reflexivity|].
  split; [vm_compute; reflexivity|].
  split; [vm_compute; reflexivity|].
  split; [vm_compute; reflexivity|].
  split; [vm_compute; reflexivity|].
  split; [vm_compute; eauto|].
  split; [eexists; split; vm_compute; reflexivity|].
  destruct (findValidPhantomJsBinary_run sample_node "2.1.1" "/pkg/lib/location" w1)
    as [w' Hrun].
  assert (Hv : probe_value sample_node "2.1.1" "/pkg/lib/location" w1 = JBool false)
    by (vm_compute; reflexivity).
  rewrite Hv in Hrun. split; [exists w'; exact Hrun|].
  intros [w'' H]. rewrite Hrun in H. discriminate H.
Qed.

(** The round trip also fails for a location with a double quote, which is
    written as it is and ends the literal early: the module does not load. *)
Example write_then_probe_double_quote :
  probe_after_write quoted_location quoted_dir_host = Normal (Fulfilled (JBool false)).
Proof. vm_compute. reflexivity. Qed.

(** Off win32 a backslash is written as it is, and reads back as an escape:
    the record names another file. *)
Example write_then_probe_posix_backslash :
  (m ← parse_location_module
         (location_file_contents "phantom\phantomjs" backslash_name_host);
   m !! "location") = Some "phantomphantomjs"
  /\ probe_after_write "phantom\phantomjs" backslash_name_host
     = Normal (Fulfilled (JBool false)).
Proof. vm_compute. split; reflexivity. Qed.

(** A module that the process loaded before the write is not read again: the
    probe answers from the old record. *)
Example write_then_probe_stale_cache :
  probe_after_write "new/phantomjs" probed_before_host
  = Normal (Fulfilled (JStr "/pkg/lib/old/phantomjs")).
Proof. vm_compute. reflexivity. Qed.

(** * Further properties of the helpers *)

(** ** The probe: when it answers with a path, and what it leaves alone *)

Lemma version_matches_spec (version : string) (w : World) (p : string) :
  version_matches version w p = true <->
  exists stdout, subprocess w p ["--version"] = Normal stdout /\ trim stdout = version.
Proof.
  unfold version_matches. destruct (subprocess w p ["--version"]) as [out|e].
  - rewrite String.eqb_eq. split.
    + intros ->. eauto.
    + intros (s & [= <-] & Hs). congruence.
  - split; [discriminate|]. intros (s & Hs & _). discriminate.
Qed.

Lemma str_truthy_spec (s : string) : str_truthy s = true <-> s <> EmptyString.
Proof. destruct s; simpl; split; congruence. Qed.

Lemma probe_target_spec (node : Node) (libPath : string) (w : World) (r : string) :
  probe_target node libPath w = Some r <->
  exists m w1 location,
    require node libPath w = (Normal m, w1)
    /\ m !! "location" = Some location
    /\ location <> EmptyString
    /\ m !! "platform" = Some (getTargetPlatform w)
    /\ m !! "arch" = Some (getTargetArch w)
    /\ r = path_resolve node (path_dirname node libPath) location
    /\ is_Some (fs w !! r).
Proof.
  unfold probe_target. split.
  - destruct (require node libPath w) as [[m|e] w1]; [|discriminate].
    destruct (m !! "location") as [location|] eqn:Hl; [|discriminate].
    destruct (str_truthy location && _ && _) eqn:Hg; [|discriminate].
    apply andb_true_iff in Hg as [Hg Ha]. apply andb_true_iff in Hg as [Ht Hp].
    apply str_truthy_spec in Ht. apply js_eq_str_spec in Hp, Ha.
    destruct (fs w !! path_resolve node (path_dirname node libPath) location)
      as [n|] eqn:Hf; [|discriminate].
    intros [= <-]. exists m, w1, location. rewrite Hf. eauto 10.
  - intros (m & w1 & location & -> & -> & Hne & Hp & Ha & -> & [n Hn]).
    apply str_truthy_spec in Hne. apply js_eq_str_spec in Hp, Ha.
    rewrite Hne, Hp, Ha, Hn. reflexivity.
Qed.

Lemma probe_value_target (node : Node) (version libPath : string) (w : World) :
  probe_value node version libPath w
  = match probe_target node libPath w with
    | Some r => if version_matches version w r then JStr r else JUndefined
    | None => JBool false
    end.
Proof.
  unfold probe_value, probe_target.
  destruct (require node libPath w) as [[m|e] w1]; [|reflexivity].
  destruct (m !! "location") as [location|]; [|reflexivity].
  destruct (str_truthy location && _ && _); [|reflexivity].
  cbv zeta. destruct (fs w !! _); reflexivity.
Qed.

(** The world a probe leaves: that of the load, and of the version check when
    the probe gets as far as running the binary. *)
Lemma findValidPhantomJsBinary_run_world (node : Node) (version libPath : string)
    (w : World) :
  findValidPhantomJsBinary node version libPath w
  = (Normal (Fulfilled (probe_value node version libPath w)),
     match probe_target node libPath w with
     | Some r => snd (checkPhantomjsVersion version r (snd (require node libPath w)))
     | None => snd (require node libPath w)
     end).
Proof.
  unfold findValidPhantomJsBinary, probe_value, probe_target.
  unfold mbind at 1. unfold JS_bind, js_bind, kew_fcall, settle.
  unfold mbind at 1. unfold JS_bind, js_bind.
  destruct (require node libPath w) as [[m|e] w1] eqn:Hr;
    [|js_run; reflexivity].
  destruct (require_world _ _ _ _ _ Hr) as (mc & l0 & ->).
  set (w1 := with_console ((l0 ++ console w)%list) (with_module_cache mc w)).
  js_run.
  destruct (m !! "location") as [location|]; [|js_run; reflexivity].
  change (getTargetPlatform w1) with (getTargetPlatform w).
  change (getTargetArch w1) with (getTargetArch w).
  destruct (str_truthy location && js_eq_str (getTargetPlatform w) (m !! "platform")
            && js_eq_str (getTargetArch w) (m !! "arch"));
    [|js_run; reflexivity].
  unfold fs_statSync. simpl.
  change (fs w1) with (fs w).
  destruct (fs w !! path_resolve node (path_dirname node libPath) location);
    [|js_run; reflexivity].
  destruct (checkPhantomjsVersion_run version w1
              (path_resolve node (path_dirname node libPath) location)) as [l ->].
  change (version_matches version w1) with (version_matches version w).
  destruct (version_matches version w _); simpl; reflexivity.
Qed.

(** X1: the probe settles with a path exactly when the record loads with a
    location that is not empty, names the current platform and architecture,
    something exists at the location resolved against the record's
    directory, and the binary there reports the expected version; the path
    is that resolved location. *)
Theorem findValidPhantomJsBinary_path_iff (node : Node) (version libPath : string)
    (w : World) (p : string) :
  (exists w', findValidPhantomJsBinary node version libPath w
              = (Normal (Fulfilled (JStr p)), w'))
  <->
  (exists m w1 location,
     require node libPath w = (Normal m, w1)
     /\ m !! "location" = Some location
     /\ location <> EmptyString
     /\ m !! "platform" = Some (getTargetPlatform w)
     /\ m !! "arch" = Some (getTargetArch w)
     /\ p = path_resolve node (path_dirname node libPath) location
     /\ is_Some (fs w !! p))
  /\ (exists stdout, subprocess w p ["--version"] = Normal stdout
                     /\ trim stdout = version).
Proof.
  rewrite findValidPhantomJsBinary_run_world, probe_value_target.
  rewrite <- probe_target_spec, <- version_matches_spec. split.
  - intros [w' H]. injection H as Hv _.
    destruct (probe_target node libPath w) as [r|]; [|discriminate].
    destruct (version_matches version w r) eqn:Hm; [|discriminate].
    injection Hv as <-. auto.
  - intros [-> ->]. eexists. reflexivity.
Qed.

Lemma findValidPhantomJsBinary_path_iff_witness :
  exists w', findValidPhantomJsBinary sample_node "2.1.1" "/pkg/lib/location" own_install
             = (Normal (Fulfilled (JStr "/pkg/lib/phantom/bin/phantomjs")), w').
Proof.
  apply (proj2 (findValidPhantomJsBinary_path_iff sample_node "2.1.1"
                  "/pkg/lib/location" own_install "/pkg/lib/phantom/bin/phantomjs")).
  split.
  - eexists _, _, "phantom/bin/phantomjs".
    split; [vm_compute; reflexivity|].
    repeat split; try (vm_compute; reflexivity); try discriminate.
    vm_compute. eauto.
  - eexists. split; vm_compute; reflexivity.
Defined.

(** X2: the probe settles with [undefined], and not with [false], exactly
    when everything but the version is right: the record names the current
    target and something exists at the resolved location, but the subprocess
    fails or prints another version. *)
Theorem findValidPhantomJsBinary_undefined_iff (node : Node) (version libPath : string)
    (w : World) :
  (exists w', findValidPhantomJsBinary node version libPath w
              = (Normal (Fulfilled JUndefined), w'))
  <->
  exists m w1 location,
    require node libPath w = (Normal m, w1)
    /\ m !! "location" = Some location
    /\ location <> EmptyString
    /\ m !! "platform" = Some (getTargetPlatform w)
    /\ m !! "arch" = Some (getTargetArch w)
    /\ is_Some (fs w !! path_resolve node (path_dirname node libPath) location)
    /\ (forall stdout,
          subprocess w (path_resolve node (path_dirname node libPath) location)
            ["--version"] = Normal stdout ->
          trim stdout <> version).
Proof.
  rewrite findValidPhantomJsBinary_run_world, probe_value_target. split.
  - intros [w' H]. injection H as Hv _.
    destruct (probe_target node libPath w) as [r|] eqn:Ht; [|discriminate].
    destruct (version_matches version w r) eqn:Hm; [discriminate|].
    apply probe_target_spec in Ht
      as (m & w1 & location & Hr & Hl & Hne & Hp & Ha & -> & Hf).
    exists m, w1, location. repeat (split; [assumption|]).
    intros stdout Hs Heq.
    assert (Htrue : version_matches version w
                      (path_resolve node (path_dirname node libPath) location) = true)
      by (apply version_matches_spec; eauto).
    congruence.
  - intros (m & w1 & location & Hr & Hl & Hne & Hp & Ha & Hf & Hv).
    assert (Ht : probe_target node libPath w
                 = Some (path_resolve node (path_dirname node libPath) location))
      by (apply probe_target_spec; eauto 10).
    rewrite Ht.
    destruct (version_matches version w _) eqn:Hm.
    + apply version_matches_spec in Hm as (stdout & Hs & Heq).
      exfalso. exact (Hv stdout Hs Heq).
    + eexists. reflexivity.
Qed.

(** Loading a module keeps what the cache already holds. *)
Lemma require_cache_grows (node : Node) (request : string) (w : World)
    (f : string) (m : exports) :
  module_cache w !! f = Some m ->
  module_cache (snd (require node request w)) !! f = Some m.
Proof.
  intros H. unfold require.
  destruct (require_resolve node (fs w) request) as [f0|]; [|exact H].
  destruct (module_cache w !! f0) eqn:Hc; [exact H|].
  destruct (fs w !! f0) as [[src|]|]; try exact H.
  destruct (eval_module node f0 src); [|exact H].
  simpl. rewrite lookup_insert_ne; [exact H|]. congruence.
Qed.

(** The world after a probe is the world after the load, up to the console,
    which only grows. *)
Lemma findValidPhantomJsBinary_world (node : Node) (version libPath : string)
    (w : World) :
  exists l, snd (findValidPhantomJsBinary node version libPath w)
            = with_console ((l ++ console (snd (require node libPath w)))%list)
                (snd (require node libPath w)).
Proof.
  rewrite findValidPhantomJsBinary_run_world. simpl.
  destruct (require node libPath w) as [c w1] eqn:Hr.
  destruct (require_world _ _ _ _ _ Hr) as (mc & l0 & ->). simpl.
  destruct (probe_target node libPath w) as [r|].
  - unfold checkPhantomjsVersion, kew_nfcall_execFile. js_run.
    destruct (subprocess w r ["--version"]) as [out|e]; simpl.
    + destruct (String.eqb version (trim out)); simpl.
      * exists [ConsoleLog [LStr "Found PhantomJS at"; LStr r; LStr "...verifying"]].
        reflexivity.
      * eexists [_; _]. reflexivity.
    + eexists [_; _]. reflexivity.
  - exists []. reflexivity.
Qed.

(** X3: the probe is read-only: it leaves the environment, the host
    platform and architecture, every file, the write permissions and the
    subprocess table as they were; it only adds to the module cache and to
    the console. *)
Theorem findValidPhantomJsBinary_read_only (node : Node) (version libPath : string)
    (w : World) :
  let w' := snd (findValidPhantomJsBinary node version libPath w) in
  env w' = env w
  /\ process_platform w' = process_platform w
  /\ process_arch w' = process_arch w
  /\ fs w' = fs w
  /\ write_denied w' = write_denied w
  /\ subprocess w' = subprocess w
  /\ (forall f m, module_cache w !! f = Some m -> module_cache w' !! f = Some m)
  /\ (exists l, console w' = (l ++ console w)%list).
Proof.
  intros w'. subst w'.
  destruct (findValidPhantomJsBinary_world node version libPath w) as [l ->].
  pose proof (require_cache_grows node libPath w) as Hgrow.
  destruct (require node libPath w) as [c w1] eqn:Hr.
  destruct (require_world _ _ _ _ _ Hr) as (mc & l0 & ->). simpl in *.
  repeat (split; [reflexivity|]). split; [exact Hgrow|].
  exists (l ++ l0)%list. apply app_assoc.
Qed.

(** X4: when the record does not load, has no location or an empty one,
    names another platform or architecture, or points at a place where
    nothing exists, the probe settles with [false] without running the
    binary: the probe itself writes nothing to the console, which is left
    as the loading of the record left it. *)
Theorem findValidPhantomJsBinary_silent_refusal (node : Node) (version libPath : string)
    (w : World) :
  (forall m w1, require node libPath w = (Normal m, w1) ->
     m !! "location" = None
     \/ m !! "location" = Some EmptyString
     \/ m !! "platform" <> Some (getTargetPlatform w)
     \/ m !! "arch" <> Some (getTargetArch w)
     \/ exists location,
          m !! "location" = Some location
          /\ fs w !! path_resolve node (path_dirname node libPath) location = None) ->
  exists w', findValidPhantomJsBinary node version libPath w
             = (Normal (Fulfilled (JBool false)), w')
             /\ console w' = console (snd (require node libPath w)).
Proof.
  intros H.
  assert (Ht : probe_target node libPath w = None).
  { destruct (probe_target node libPath w) as [r|] eqn:Ht; [exfalso|reflexivity].
    apply probe_target_spec in Ht
      as (m & w1 & location & Hr & Hl & Hne & Hp & Ha & -> & [n Hn]).
    destruct (H m w1 Hr) as [H1|[H1|[H1|[H1|(loc & H1 & H2)]]]]; try congruence. }
  rewrite findValidPhantomJsBinary_run_world, probe_value_target, Ht.
  eexists. split; reflexivity.
Qed.

Lemma findValidPhantomJsBinary_silent_refusal_witness :
  exists w', findValidPhantomJsBinary sample_node "2.1.1" "/pkg/lib/location"
               foreign_install
             = (Normal (Fulfilled (JBool false)), w')
             /\ console w' = console foreign_install.
Proof.
  destruct (findValidPhantomJsBinary_silent_refusal sample_node "2.1.1"
              "/pkg/lib/location" foreign_install) as (w' & Hrun & Hcon).
  - intros m w1 Hr. right. right. left.
    vm_compute in Hr. injection Hr as <- _. vm_compute. discriminate.
  - exists w'. split; [exact Hrun|]. rewrite Hcon. reflexivity.
Defined.

(** A record that prints while it loads leaves its line on the console, and
    the refused probe adds nothing to it. *)
Example findValidPhantomJsBinary_chatty_record :
  let r := findValidPhantomJsBinary chatty_node "2.1.1" "/pkg/lib/location"
             foreign_install in
  fst r = Normal (Fulfilled (JBool false))
  /\ console (snd r) = [ConsoleLog [LStr "loading"; LStr "/pkg/lib/location.js"]].
Proof. vm_compute. split; reflexivity. Qed.

(** A module answers the same when it is required again, whatever was
    written to the console in between. *)
Lemma require_again (node : Node) (request : string) (w : World) (l : list log_line) :
  fst (require node request (with_console l (snd (require node request w))))
  = fst (require node request w).
Proof.
  unfold require.
  destruct (require_resolve node (fs w) request) as [f|] eqn:Hres; simpl;
    [|rewrite Hres; reflexivity].
  destruct (module_cache w !! f) as [m|] eqn:Hc; simpl;
    [rewrite Hres, Hc; reflexivity|].
  destruct (fs w !! f) as [[src|]|] eqn:Hf; simpl;
    try (rewrite Hres, Hc, Hf; reflexivity).
  destruct (eval_module node f src) as [m|e] eqn:He; simpl.
  - rewrite Hres, lookup_insert_eq. reflexivity.
  - rewrite Hres, Hc, Hf, He. reflexivity.
Qed.

(** The value of a probe depends on the world through the loaded record, the
    target, the files and the subprocess table only. *)
Lemma probe_value_stable (node : Node) (version libPath : string) (w w2 : World) :
  fst (require node libPath w2) = fst (require node libPath w) ->
  env w2 = env w ->
  process_platform w2 = process_platform w ->
  process_arch w2 = process_arch w ->
  fs w2 = fs w ->
  subprocess w2 = subprocess w ->
  probe_value node version libPath w2 = probe_value node version libPath w.
Proof.
  intros Hr He Hp Ha Hf Hs.
  unfold probe_value, version_matches, getTargetPlatform, getTargetArch.
  destruct (require node libPath w2) as [c2 w2'].
  destruct (require node libPath w) as [c w'].
  simpl in Hr. subst c2. rewrite He, Hp, Ha, Hf, Hs. reflexivity.
Qed.

(** X5: a probe can be repeated: run again in the world the first run left,
    it settles with the same value, the record being answered from the
    module cache. *)
Theorem findValidPhantomJsBinary_repeatable (node : Node) (version libPath : string)
    (w : World) :
  fst (findValidPhantomJsBinary node version libPath
         (snd (findValidPhantomJsBinary node version libPath w)))
  = fst (findValidPhantomJsBinary node version libPath w).
Proof.
  destruct (findValidPhantomJsBinary_world node version libPath w) as [l Hw].
  rewrite Hw, !findValidPhantomJsBinary_run_world. simpl. do 2 f_equal.
  pose proof (require_again node libPath w
                (l ++ console (snd (require node libPath w)))%list) as Hagain.
  destruct (require node libPath w) as [c w1] eqn:Hr.
  destruct (require_world _ _ _ _ _ Hr) as (mc & l0 & ->).
  apply probe_value_stable; try reflexivity.
  rewrite Hr. exact Hagain.
Qed.

(** ** The metadata writer: failure, frame and overwriting *)

(** X6: the writer does not absorb a failed write.  It succeeds exactly when
    [location.js] may be written and is not a directory; otherwise the
    exception of [writeFileSync] reaches the caller, after the log line, and
    no file and no cached module has changed. *)
Theorem writeLocationFile_failure_propagates (node : Node) (libPath location : string)
    (w : World) :
  let target := path_join node libPath "location.js" in
  ((exists w', writeLocationFile node libPath location w = (Normal tt, w'))
   <-> (target ∉ write_denied w) /\ fs w !! target <> Some Dir)
  /\ (forall c w',
        writeLocationFile node libPath location w = (c, w') ->
        c <> Normal tt ->
        (exists e, c = Throw e)
        /\ fs w' = fs w
        /\ module_cache w' = module_cache w
        /\ console w' = ConsoleLog [LStr "Writing location.js file"] :: console w).
Proof.
  intros target. unfold writeLocationFile, fs_writeFileSync. js_run. fold target.
  destruct (bool_decide_reflect (target ∈ write_denied w)) as [Hd|Hd].
  - split.
    + split; [intros [w' [=]]|]. intros [Hn _]. contradiction.
    + intros c w' [= <- <-] _. simpl. eauto.
  - destruct (fs w !! target) as [[d|]|] eqn:Hf.
    + split.
      * split; [intros _; split; [exact Hd|discriminate]|]. intros _. eauto.
      * intros c w' [= <- <-] Hc. contradiction Hc. reflexivity.
    + split.
      * split; [intros [w' [=]]|]. intros [_ Hn]. contradiction Hn. reflexivity.
      * intros c w' [= <- <-] _. simpl. eauto.
    + split.
      * split; [intros _; split; [exact Hd|discriminate]|]. intros _. eauto.
      * intros c w' [= <- <-] Hc. contradiction Hc. reflexivity.
Qed.

(** X7: a successful write touches one file.  Every other path, the
    environment, the host platform and architecture, the module cache and
    the subprocess table are as before, and the console has one more line. *)
Theorem writeLocationFile_frame (node : Node) (libPath location : string) (w w' : World) :
  writeLocationFile node libPath location w = (Normal tt, w') ->
  (forall p, p <> path_join node libPath "location.js" -> fs w' !! p = fs w !! p)
  /\ env w' = env w
  /\ process_platform w' = process_platform w
  /\ process_arch w' = process_arch w
  /\ module_cache w' = module_cache w
  /\ subprocess w' = subprocess w
  /\ console w' = ConsoleLog [LStr "Writing location.js file"] :: console w.
Proof.
  intros H. apply writeLocationFile_run in H. subst w'. simpl.
  split; [|repeat split].
  intros p Hp. apply lookup_insert_ne. congruence.
Qed.

Lemma writeLocationFile_frame_witness :
  let w' := win32_target_written in
  fs w' !! "/pkg/lib/phantom\phantomjs.exe" = Some (File "MZ")
  /\ env w' = env win32_target_host
  /\ console w' = [ConsoleLog [LStr "Writing location.js file"]].
Proof.
  destruct (writeLocationFile_frame sample_node "/pkg/lib" "phantom\phantomjs.exe"
              win32_target_host win32_target_written)
    as (Hfs & Henv & _ & _ & _ & _ & Hcon).
  - vm_compute. reflexivity.
  - split; [|split].
    + rewrite Hfs; [vm_compute; reflexivity|]. vm_compute. discriminate.
    + exact Henv.
    + exact Hcon.
Defined.

(** The text of a record depends on the world through the environment and
    the host's platform and architecture only. *)
Lemma location_file_contents_stable (location : string) (w w2 : World) :
  env w2 = env w ->
  process_platform w2 = process_platform w ->
  process_arch w2 = process_arch w ->
  location_file_contents location w2 = location_file_contents location w.
Proof.
  intros He Hp Ha. unfold location_file_contents, getTargetPlatform, getTargetArch.
  rewrite He, Hp, Ha. reflexivity.
Qed.

(** The writer logs, builds the text and hands it to [writeFileSync]. *)
Lemma writeLocationFile_result (node : Node) (libPath location : string) (w : World) :
  writeLocationFile node libPath location w
  = fs_writeFileSync (path_join node libPath "location.js")
      (location_file_contents location w)
      (with_console (ConsoleLog [LStr "Writing location.js file"] :: console w) w).
Proof. reflexivity. Qed.

(** X8: the last write wins.  After a successful write, a second write
    succeeds too and leaves the files as if it had been the only one; the
    record is overwritten, not appended to. *)
Theorem writeLocationFile_overwrites (node : Node) (libPath first second : string)
    (w w1 : World) :
  writeLocationFile node libPath first w = (Normal tt, w1) ->
  exists w2 w2',
    writeLocationFile node libPath second w1 = (Normal tt, w2)
    /\ writeLocationFile node libPath second w = (Normal tt, w2')
    /\ fs w2 = fs w2'
    /\ fs w2 !! path_join node libPath "location.js"
       = Some (File (location_file_contents second w)).
Proof.
  intros H1.
  pose proof (writeLocationFile_run _ _ _ _ _ H1) as Hw1.
  set (target := path_join node libPath "location.js") in *.
  assert (Hok : bool_decide (target ∈ write_denied w) = false
                /\ fs w !! target <> Some Dir).
  { rewrite writeLocationFile_result in H1. unfold fs_writeFileSync in H1.
    fold target in H1. cbn [write_denied fs with_console] in H1.
    destruct (bool_decide (target ∈ write_denied w)); [discriminate|].
    split; [reflexivity|]. intros Hdir. rewrite Hdir in H1. discriminate. }
  destruct Hok as [Hd Hnd].
  assert (Hc : location_file_contents second w1 = location_file_contents second w)
    by (rewrite Hw1; apply location_file_contents_stable; reflexivity).
  rewrite !writeLocationFile_result, Hc. unfold fs_writeFileSync. fold target.
  rewrite Hw1. cbn [write_denied fs with_console with_fs]. rewrite Hd, lookup_insert_eq.
  destruct (fs w !! target) as [[d|]|]; try (contradiction Hnd; reflexivity);
    (eexists; eexists; split; [reflexivity|]; split; [reflexivity|];
     cbn [fs with_fs]; split; [apply insert_insert_eq|apply lookup_insert_eq]).
Qed.

Lemma writeLocationFile_overwrites_witness :
  exists w2,
    writeLocationFile sample_node "/pkg/lib" "other/phantomjs" win32_target_written
    = (Normal tt, w2)
    /\ fs w2 !! "/pkg/lib/location.js"
       = Some (File (assignment_line "location" "other/phantomjs"
                     +:+ assignment_line "platform" "win32"
                     +:+ assignment_line "arch" "x64")).
Proof.
  destruct (writeLocationFile_overwrites sample_node "/pkg/lib"
              "phantom\phantomjs.exe" "other/phantomjs"
              win32_target_host win32_target_written)
    as (w2 & w2' & H2 & _ & _ & Hf).
  - vm_compute. reflexivity.
  - exists w2. split; [exact H2|]. refine (eq_trans Hf _). vm_compute. reflexivity.
Defined.

Lemma writeLocationFile_failure_propagates_witness :
  exists e w', writeLocationFile sample_node "/pkg/lib" "phantom/bin/phantomjs"
                 read_only_lib = (Throw e, w')
               /\ fs w' = fs read_only_lib.
Proof.
  destruct (writeLocationFile sample_node "/pkg/lib" "phantom/bin/phantomjs"
              read_only_lib) as [c w'] eqn:Hw.
  destruct (writeLocationFile_failure_propagates sample_node "/pkg/lib"
              "phantom/bin/phantomjs" read_only_lib) as [_ Hfail].
  destruct (Hfail c w' Hw) as ([e ->] & Hfs & _).
  - vm_compute in Hw. injection Hw as <- _. discriminate.
  - exists e, w'. auto.
Defined.

(** ** The record determines the location *)

Lemma append_length (a b : string) :
  String.length (a +:+ b) = String.length a + String.length b.
Proof.
  induction a as [|c a IH]; [reflexivity|].
  change (S (String.length (a +:+ b)) = S (String.length a + String.length b)).
  rewrite IH. reflexivity.
Qed.

Lemma append_inj_l (p a b : string) : p +:+ a = p +:+ b -> a = b.
Proof.
  induction p as [|c p IH]; [trivial|].
  change (String c (p +:+ a) = String c (p +:+ b) -> a = b).
  intros [= H]. exact (IH H).
Qed.

Lemma append_inj_same_length (a b r t : string) :
  String.length a = String.length b -> a +:+ r = b +:+ t -> a = b /\ r = t.
Proof.
  revert b. induction a as [|c a IH]; intros [|d b] Hlen; try discriminate Hlen.
  - intros H. split; [reflexivity|exact H].
  - change (String c (a +:+ r) = String d (b +:+ t) -> String c a = String d b /\ r = t).
    intros [= -> H]. injection Hlen as Hlen.
    destruct (IH b Hlen H) as [-> ->]. split; reflexivity.
Qed.

Lemma append_inj_r (a b r : string) : a +:+ r = b +:+ r -> a = b.
Proof.
  intros H. apply (append_inj_same_length a b r r); [|exact H].
  apply (f_equal String.length) in H. rewrite !append_length in H.
  apply (Nat.add_cancel_r _ _ (String.length r)). exact H.
Qed.

Lemma append_empty_r (a : string) : a +:+ EmptyString = a.
Proof.
  induction a as [|c a IH]; [reflexivity|].
  change (String c (a +:+ EmptyString) = String c a). rewrite IH. reflexivity.
Qed.

(** Doubling the backslashes loses nothing. *)
Lemma escape_backslashes_inj (a b : string) :
  escape_backslashes a = escape_backslashes b -> a = b.
Proof.
  revert b. induction a as [|c a IH]; intros [|d b]; simpl.
  - reflexivity.
  - destruct (Ascii.eqb d backslash); discriminate.
  - destruct (Ascii.eqb c backslash); discriminate.
  - destruct (Ascii.eqb_spec c backslash) as [->|Hc];
      destruct (Ascii.eqb_spec d backslash) as [->|Hd].
    + intros [= H]. rewrite (IH b H). reflexivity.
    + intros [= <- _]. contradiction Hd. reflexivity.
    + intros [= -> _]. contradiction Hc. reflexivity.
    + intros [= -> H]. rewrite (IH b H). reflexivity.
Qed.

(** The text of a record, with the part that depends on the location set
    apart from the parts that do not. *)
Lemma location_file_contents_shape (w : World) :
  exists tail,
    (forall l, location_file_contents l w
               = "module.exports.location = "
                 +:+ String dquote (written_location w l
                                    +:+ String dquote (String LF tail))).
Proof.
  exists (if test_alnum (getTargetPlatform w) && test_alnum (getTargetArch w)
          then assignment_line "platform" (getTargetPlatform w)
               +:+ assignment_line "arch" (getTargetArch w)
          else EmptyString).
  intros l. unfold location_file_contents. fold (written_location w l).
  cbv zeta.
  destruct (test_alnum (getTargetPlatform w) && test_alnum (getTargetArch w)).
  - change ("module.exports.platform = " +:+ String dquote (getTargetPlatform w)
              +:+ String dquote (String LF EmptyString))
      with (assignment_line "platform" (getTargetPlatform w)).
    change ("module.exports.arch = " +:+ String dquote (getTargetArch w)
              +:+ String dquote (String LF EmptyString))
      with (assignment_line "arch" (getTargetArch w)).
    rewrite !append_assoc.
    change (String dquote (written_location w l) +:+ ?x)
      with (String dquote (written_location w l +:+ x)).
    reflexivity.
  - reflexivity.
Qed.

(** X9: in a given world two locations are written as the same record only
    when they are the same location; the doubling of backslashes on win32
    does not make two locations collide. *)
Theorem location_file_contents_inj (first second : string) (w : World) :
  location_file_contents first w = location_file_contents second w ->
  first = second.
Proof.
  destruct (location_file_contents_shape w) as [tail Hshape].
  rewrite !Hshape. intros H.
  apply append_inj_l in H. injection H as H. apply append_inj_r in H.
  unfold written_location in H.
  destruct (String.eqb (getTargetPlatform w) "win32"); [|exact H].
  apply escape_backslashes_inj, H.
Qed.

Lemma location_file_contents_inj_witness :
  location_file_contents "phantom\phantomjs.exe" win32_target_host
  = location_file_contents "phantom\phantomjs.exe" win32_target_host
  /\ location_file_contents "phantom\\phantomjs.exe" win32_target_host
     <> location_file_contents "phantom\phantomjs.exe" win32_target_host.
Proof.
  split; [reflexivity|]. intros H.
  apply (location_file_contents_inj "phantom\\phantomjs.exe" "phantom\phantomjs.exe"
           win32_target_host) in H.
  discriminate H.
Defined.

(** ** Trimming the version that the binary prints *)

Lemma trim_start_all_space (b : string) : all_space b = true -> trim_start b = EmptyString.
Proof.
  induction b as [|c b IH]; [reflexivity|]. cbn [all_space trim_start].
  intros H. apply andb_true_iff in H as [Hc Hb]. rewrite Hc. exact (IH Hb).
Qed.

Lemma trim_end_all_space (b : string) : all_space b = true -> trim_end b = EmptyString.
Proof.
  induction b as [|c b IH]; [reflexivity|]. cbn [all_space trim_end].
  intros H. apply andb_true_iff in H as [Hc Hb]. rewrite (IH Hb), Hc. reflexivity.
Qed.

Lemma trim_start_spaces (a x : string) :
  all_space a = true -> trim_start (a +:+ x) = trim_start x.
Proof.
  induction a as [|c a IH]; [reflexivity|]. cbn [all_space].
  intros H. apply andb_true_iff in H as [Hc Ha].
  change (String c a +:+ x) with (String c (a +:+ x)).
  cbn [trim_start]. rewrite Hc. exact (IH Ha).
Qed.

Lemma trim_end_spaces (y b : string) :
  all_space b = true -> trim_end (y +:+ b) = trim_end y.
Proof.
  intros Hb. induction y as [|c y IH]; [exact (trim_end_all_space b Hb)|].
  change (String c y +:+ b) with (String c (y +:+ b)).
  cbn [trim_end]. rewrite IH. reflexivity.
Qed.

(** White space around the output does not change what is compared. *)
Lemma trim_surrounded (a s b : string) :
  all_space a = true -> all_space b = true -> trim (a +:+ s +:+ b) = trim s.
Proof.
  intros Ha Hb. unfold trim. rewrite (trim_start_spaces a _ Ha).
  induction s as [|c s IH].
  - change (EmptyString +:+ b) with b. rewrite (trim_start_all_space b Hb). reflexivity.
  - change (String c s +:+ b) with (String c (s +:+ b)).
    cbn [trim_start]. destruct (is_js_space c); [exact IH|].
    change (String c (s +:+ b)) with (String c s +:+ b).
    apply trim_end_spaces, Hb.
Qed.

Lemma trim_end_idem (s : string) : trim_end (trim_end s) = trim_end s.
Proof.
  induction s as [|c s IH]; [reflexivity|]. cbn [trim_end].
  destruct (trim_end s) as [|d k] eqn:Hk.
  - destruct (is_js_space c) eqn:Hc; [reflexivity|].
    cbn [trim_end]. rewrite Hc. reflexivity.
  - cbn [trim_end]. cbn [trim_end] in IH. rewrite IH. reflexivity.
Qed.

Lemma trim_start_head (s : string) :
  trim_start s = EmptyString
  \/ exists c r, trim_start s = String c r /\ is_js_space c = false.
Proof.
  induction s as [|c s IH]; [left; reflexivity|]. cbn [trim_start].
  destruct (is_js_space c) eqn:Hc; [exact IH|]. right. eauto.
Qed.

Lemma trim_end_head (c : ascii) (r : string) :
  is_js_space c = false -> exists k, trim_end (String c r) = String c k.
Proof.
  intros Hc. cbn [trim_end]. destruct (trim_end r); [rewrite Hc|]; eauto.
Qed.

(** Trimming twice is trimming once. *)
Lemma trim_idem (s : string) : trim (trim s) = trim s.
Proof.
  unfold trim. destruct (trim_start_head s) as [->|(c & r & -> & Hc)].
  - reflexivity.
  - destruct (trim_end_head c r Hc) as [k Hk]. rewrite Hk.
    cbn [trim_start]. rewrite Hc, <- Hk. apply trim_end_idem.
Qed.

(** X11: white space before and after the version that the binary prints is
    ignored: when the expected version has no white space around it and the
    binary prints it between two runs of white space, such as a final line
    feed, the check settles with [true]. *)
Theorem checkPhantomjsVersion_ignores_surrounding_space (version : string) (w : World)
    (phantomPath before after : string) :
  all_space before = true ->
  all_space after = true ->
  trim version = version ->
  subprocess w phantomPath ["--version"] = Normal (before +:+ version +:+ after) ->
  exists w', checkPhantomjsVersion version phantomPath w = (Normal (Fulfilled true), w').
Proof.
  intros Hb Ha Hv Hs.
  destruct (checkPhantomjsVersion_run version w phantomPath) as [l ->].
  eexists. do 2 f_equal. f_equal.
  unfold version_matches. rewrite Hs, (trim_surrounded _ _ _ Hb Ha), Hv.
  apply String.eqb_refl.
Qed.

Lemma checkPhantomjsVersion_ignores_surrounding_space_witness :
  exists w', checkPhantomjsVersion "2.1.1" "/pkg/lib/phantom/bin/phantomjs" own_install
             = (Normal (Fulfilled true), w').
Proof.
  apply (checkPhantomjsVersion_ignores_surrounding_space "2.1.1" own_install
           "/pkg/lib/phantom/bin/phantomjs" EmptyString (String LF EmptyString));
    reflexivity.
Defined.

(** X12: the output is trimmed but the expected version is not: an expected
    version with white space at either end is never matched, whatever the
    binary prints. *)
Theorem checkPhantomjsVersion_untrimmed_version (version : string) (w : World)
    (phantomPath : string) :
  trim version <> version ->
  exists w', checkPhantomjsVersion version phantomPath w = (Normal (Fulfilled false), w').
Proof.
  intros Hv.
  destruct (checkPhantomjsVersion_run version w phantomPath) as [l ->].
  eexists. do 2 f_equal. f_equal.
  unfold version_matches. destruct (subprocess w phantomPath ["--version"]) as [out|e];
    [|reflexivity].
  apply String.eqb_neq. intros ->. apply Hv, trim_idem.
Qed.

Lemma checkPhantomjsVersion_untrimmed_version_witness :
  exists w', checkPhantomjsVersion ("2.1.1" +:+ String LF EmptyString)
               "/pkg/lib/phantom/bin/phantomjs" own_install
             = (Normal (Fulfilled false), w').
Proof.
  apply (checkPhantomjsVersion_untrimmed_version ("2.1.1" +:+ String LF EmptyString)
           own_install "/pkg/lib/phantom/bin/phantomjs").
  vm_compute. discriminate.
Defined.

(** ** What the verifiers write to the console *)

(** X10: on a file name without a NUL character the checksum verifier
    changes nothing in the world but the console, to which it adds exactly
    one line: the confirmation when the checksum matches, the mismatch
    message when the file was read and the digest differs, and an error line
    carrying the read error otherwise.  On a file name with a NUL character
    it throws before it logs: the world is as it was. *)
Theorem verifyChecksum_logs_once (node : Node) (w : World) (fileName checksum : string) :
  (has_nul fileName = false ->
   exists line,
     snd (verifyChecksum node fileName checksum w) = with_console (line :: console w) w
     /\ (fst (verifyChecksum node fileName checksum w) = Normal (Fulfilled true) ->
         line = ConsoleLog [LStr "Verified checksum of previously downloaded file"])
     /\ (forall data, fs w !! fileName = Some (File data) ->
                      sha256_hex node data <> checksum ->
                      line = ConsoleLog [LStr "Checksum did not match"])
     /\ ((forall data, fs w !! fileName <> Some (File data)) ->
         exists e, line = ConsoleError [LStr "Failed to verify checksum: "; LErr e]))
  /\ (has_nul fileName = true ->
      snd (verifyChecksum node fileName checksum w) = w).
Proof.
  unfold verifyChecksum, hasha_fromFile. js_run. split; intros Hn; rewrite Hn;
    [|reflexivity].
  destruct (fs w !! fileName) as [[data|]|] eqn:Hf.
  - destruct (String.eqb_spec checksum (sha256_hex node data)) as [He|He];
      simpl; eexists; (split; [reflexivity|]); (split; [|split]).
    + reflexivity.
    + intros d [= <-] Hd. congruence.
    + intros H. exfalso. exact (H data eq_refl).
    + discriminate.
    + reflexivity.
    + intros H. exfalso. exact (H data eq_refl).
  - eexists; (split; [reflexivity|]); (split; [|split]).
    + discriminate.
    + discriminate.
    + eauto.
  - eexists; (split; [reflexivity|]); (split; [|split]).
    + discriminate.
    + discriminate.
    + eauto.
Qed.

(** X16: on a file name without a NUL character [verifyChecksum] settles
    fulfilled, with a boolean that is [true] exactly when the file can be
    read and the hexadecimal SHA-256 digest of its data is the expected
    checksum; when the file cannot be read the boolean is [false]. *)
Theorem verifyChecksum_settles (node : Node) (w : World) (fileName checksum : string) :
  has_nul fileName = false ->
  exists (b : bool) (w' : World),
    verifyChecksum node fileName checksum w = (Normal (Fulfilled b), w')
    /\ (b = true <->
        exists data, fs w !! fileName = Some (File data)
                     /\ sha256_hex node data = checksum)
    /\ ((forall data, fs w !! fileName <> Some (File data)) -> b = false).
Proof.
  intros Hn. unfold verifyChecksum, hasha_fromFile. js_run. rewrite Hn.
  destruct (fs w !! fileName) as [[data|]|] eqn:Hf.
  - destruct (String.eqb_spec checksum (sha256_hex node data)) as [He|He];
      simpl; eexists; eexists; (split; [reflexivity|]); split.
    + split; [|reflexivity]. intros _. exists data. auto.
    + intros H. exfalso. exact (H data eq_refl).
    + split; [discriminate|]. intros (d & [= <-] & Hd). congruence.
    + reflexivity.
  - eexists; eexists; (split; [reflexivity|]); split; [|reflexivity].
    split; [discriminate|]. intros (d & Hd & _). discriminate.
  - eexists; eexists; (split; [reflexivity|]); split; [|reflexivity].
    split; [discriminate|]. intros (d & Hd & _). discriminate.
Qed.

Lemma verifyChecksum_settles_witness :
  (exists w', verifyChecksum sample_node "/pkg/lib/phantom/bin/phantomjs" "sha256:ELF"
                own_install = (Normal (Fulfilled true), w'))
  /\ (exists w', verifyChecksum sample_node "/tmp/phantomjs.zip" "sha256:ELF"
                   own_install = (Normal (Fulfilled false), w')).
Proof.
  split.
  - destruct (verifyChecksum_settles sample_node own_install
                "/pkg/lib/phantom/bin/phantomjs" "sha256:ELF" eq_refl)
      as (b & w' & Hrun & Hiff & _).
    assert (Hb : b = true)
      by (apply Hiff; exists "ELF"; split; vm_compute; reflexivity).
    subst b. eauto.
  - destruct (verifyChecksum_settles sample_node own_install
                "/tmp/phantomjs.zip" "sha256:ELF" eq_refl)
      as (b & w' & Hrun & _ & Hfalse).
    assert (Hb : b = false)
      by (apply Hfalse; intros data; vm_compute; discriminate).
    subst b. eauto.
Defined.

(** X13: the version verifier changes nothing in the world but the console.
    It first announces the binary it found; a matching version adds nothing
    more, another version adds the wrong-version line with the trimmed
    output and the path, and a failed subprocess adds an error line carrying
    the error. *)
Theorem checkPhantomjsVersion_logs (version : string) (w : World) (phantomPath : string) :
  exists l,
    snd (checkPhantomjsVersion version phantomPath w)
    = with_console
        ((l ++ ConsoleLog [LStr "Found PhantomJS at"; LStr phantomPath;
                           LStr "...verifying"] :: console w)%list) w
    /\ (fst (checkPhantomjsVersion version phantomPath w) = Normal (Fulfilled true) ->
        l = [])
    /\ (forall stdout, subprocess w phantomPath ["--version"] = Normal stdout ->
                       trim stdout <> version ->
                       l = [ConsoleLog [LStr "PhantomJS detected, but wrong version";
                                        LStr (trim stdout); LStr "@";
                                        LStr (phantomPath +:+ ".")]])
    /\ (forall e, subprocess w phantomPath ["--version"] = Throw e ->
                  l = [ConsoleError [LStr "Error verifying phantomjs, continuing";
                                     LErr e]]).
Proof.
  unfold checkPhantomjsVersion, kew_nfcall_execFile. js_run.
  destruct (subprocess w phantomPath ["--version"]) as [stdout|e]; simpl.
  - destruct (String.eqb_spec version (trim stdout)) as [He|He]; simpl.
    + exists []. split; [reflexivity|]. split; [reflexivity|].
      split; [|discriminate]. intros s [= <-] Hs. congruence.
    + eexists [_]. split; [reflexivity|]. split; [discriminate|].
      split; [|discriminate]. intros s [= <-] _. reflexivity.
  - eexists [_]. split; [reflexivity|]. split; [discriminate|].
    split; [discriminate|]. intros e' [= <-]. reflexivity.
Qed.

(** ** The download table as a whole *)

(** X14: a download exists exactly for the darwin platform and for
    linux/arm64, and for darwin it is the same whatever the architecture
    is. *)
Theorem getDownloadSpec_supported_iff (version : string) (w : World) :
  (is_Some (getDownloadSpec version w)
   <-> getTargetPlatform w = "darwin"
       \/ (getTargetPlatform w = "linux" /\ getTargetArch w = "arm64"))
  /\ (forall w2, getTargetPlatform w = "darwin" ->
                 getTargetPlatform w2 = "darwin" ->
                 getDownloadSpec version w2 = getDownloadSpec version w).
Proof.
  unfold getDownloadSpec. split.
  - destruct (String.eqb_spec (getTargetPlatform w) "linux") as [Hp|Hp];
      destruct (String.eqb_spec (getTargetArch w) "arm64") as [Ha|Ha];
      destruct (String.eqb_spec (getTargetPlatform w) "darwin") as [Hd|Hd];
      simpl; split; try (intros _; eauto; fail);
      try (intros [? Hn]; discriminate Hn);
      try (intros [?|[? ?]]; congruence); eauto.
  - intros w2 -> ->. reflexivity.
Qed.

(** ** A record written for a target that is not alphanumeric *)

(** The module written for a target that is not alphanumeric evaluates to a
    record with the location alone. *)
Lemma location_only_file_reads_back (w : World) (location : string) :
  has_non_alnum (getTargetPlatform w) \/ has_non_alnum (getTargetArch w) ->
  survives_quoting (String.eqb (getTargetPlatform w) "win32") location = true ->
  parse_location_module (location_file_contents location w)
  = Some (<["location" := location]> ∅).
Proof.
  intros Hn Hq.
  assert (Ht : test_alnum (getTargetPlatform w) && test_alnum (getTargetArch w) = false)
    by (apply andb_false_iff; rewrite !test_alnum_false; exact Hn).
  assert (Hc : location_file_contents location w
               = assignment_text "location" (written_location w location)
                   +:+ String LF EmptyString).
  { unfold location_file_contents. rewrite Ht. fold (written_location w location).
    apply (assignment_line_text "location"). }
  unfold parse_location_module. rewrite Hc, split_lines_line.
  - simpl. rewrite (parse_assignment_text "location" _ location).
    + reflexivity.
    + unfold known_field; tauto.
    + apply written_location_reads_back, Hq.
  - apply assignment_text_no_line_feed;
      [unfold known_field; tauto|apply written_location_no_line_feed, Hq].
Qed.

(** X15: the writer and the probe do not agree on a target that is not
    alphanumeric.  When the platform or the architecture has a character
    outside [[a-zA-Z0-9]], the record is written without them, and the probe
    of the record just written settles with [false] whatever the binary at
    the location is. *)
Theorem non_alnum_target_round_trip_fails (node : Node) (version libPath probePath location : string)
    (w w1 : World) :
  let target := path_join node libPath "location.js" in
  evaluates_location_modules node target ->
  has_non_alnum (getTargetPlatform w) \/ has_non_alnum (getTargetArch w) ->
  survives_quoting (String.eqb (getTargetPlatform w) "win32") location = true ->
  module_cache w !! target = None ->
  writeLocationFile node libPath location w = (Normal tt, w1) ->
  require_resolve node (fs w1) probePath = Some target ->
  exists w', findValidPhantomJsBinary node version probePath w1
             = (Normal (Fulfilled (JBool false)), w').
Proof.
  intros target Heval Hn Hq Hcache Hwrite Hres.
  apply writeLocationFile_run in Hwrite. fold target in Hwrite.
  assert (Hreq : fst (require node probePath w1)
                 = Normal (<["location" := location]> ∅)).
  { unfold require. rewrite Hres.
    assert (Hc1 : module_cache w1 !! target = None) by (subst w1; exact Hcache).
    assert (Hf1 : fs w1 !! target = Some (File (location_file_contents location w)))
      by (subst w1; apply lookup_insert_eq).
    rewrite Hc1, Hf1.
    rewrite (Heval _ _ (location_only_file_reads_back w location Hn Hq)).
    reflexivity. }
  rewrite findValidPhantomJsBinary_run_world. eexists. do 2 f_equal. f_equal.
  unfold probe_value. destruct (require node probePath w1) as [c w2].
  simpl in Hreq. subst c.
  replace ((<["location" := location]> ∅ : exports) !! "platform") with (@None string)
    by reflexivity.
  destruct ((<["location" := location]> ∅ : exports) !! "location"); [|reflexivity].
  simpl. rewrite andb_false_r. reflexivity.
Qed.

Lemma non_alnum_target_round_trip_fails_witness :
  exists w', findValidPhantomJsBinary sample_node "2.1.1" "/pkg/lib/location"
               (snd (writeLocationFile sample_node "/pkg/lib" "phantom/bin/phantomjs"
                       underscore_arch_host))
             = (Normal (Fulfilled (JBool false)), w').
Proof.
  apply (non_alnum_target_round_trip_fails sample_node "2.1.1" "/pkg/lib" "/pkg/lib/location"
           "phantom/bin/phantomjs" underscore_arch_host).
  - apply sample_node_evaluates.
  - right. apply test_alnum_false. vm_compute. reflexivity.
  - vm_compute. reflexivity.
  - reflexivity.
  - vm_compute. reflexivity.
  - vm_compute. reflexivity.
Defined.
